(** * extractoR roadmap scripts: a shallow embedding and its properties

    The repository holds two Python scripts.  [create_issues.py] reads a
    bearer token from the environment and posts a literal catalog of issue
    records to the GitHub API, one at a time, sleeping between requests and
    printing a tally.  [create_issues_direct.py] first resolves a token (from
    the environment, else from the [gh] command-line helper), checks it with
    a GET request, then executes the text of the first script and calls its
    [main].

    The scripts are effectful: they read the environment, start
    subprocesses, talk HTTP, sleep, print and call [sys.exit].  They are
    embedded in a small monad that threads the chronological trace of
    observable events and distinguishes normal return, a raised exception
    and [SystemExit].  Everything outside the two scripts (environment
    variables, the helper, the server, the text renderings of the Python
    runtime) is a [world], over which the theorems quantify. *)

From Stdlib Require Import String Ascii ZArith NArith Bool Lia List.
From Stdlib Require Import DecimalString SpecFloat.
Import ListNotations.

(** ** Python values used by the scripts *)

Module Py.

(** A Python [str] is a sequence of Unicode code points. *)
Definition str := list N.

(** An ASCII literal of the source, as code points. *)
Definition lit (s : string) : str := map N_of_ascii (list_ascii_of_string s).

Fixpoint str_eqb (a b : str) : bool :=
  match a, b with
  | [], [] => true
  | x :: a', y :: b' => N.eqb x y && str_eqb a' b'
  | _, _ => false
  end.

(** [str.isspace] on one code point: the table of CPython's
    [_PyUnicode_IsWhitespace]. *)
Definition isspace (c : N) : bool :=
  ((9 <=? c) && (c <=? 13) || (28 <=? c) && (c <=? 32)
   || (c =? 133) || (c =? 160) || (c =? 5760)
   || (8192 <=? c) && (c <=? 8202)
   || (c =? 8232) || (c =? 8233) || (c =? 8239) || (c =? 8287)
   || (c =? 12288))%N.

Fixpoint lstrip (s : str) : str :=
  match s with
  | [] => []
  | c :: s' => if isspace c then lstrip s' else s
  end.

Definition rstrip (s : str) : str := rev (lstrip (rev s)).

(** [s.strip()] with no argument. *)
Definition strip (s : str) : str := rstrip (lstrip s).

(** [str(n)] for an [int]. *)
Definition str_of_int (z : Z) : str := lit (NilZero.string_of_int (Z.to_int z)).

(** [s * n] for a [str] and a count. *)
Definition str_times (c : str) (n : nat) : str := concat (repeat c n).

(** [sep.join(parts)]. *)
Fixpoint join (sep : str) (parts : list str) : str :=
  match parts with
  | [] => []
  | [p] => p
  | p :: rest => p ++ sep ++ join sep rest
  end.

(** Truth value of [os.environ.get(...)] and of a resolved token:
    [None] and the empty string are false. *)
Definition truthy (o : option str) : bool :=
  match o with
  | Some (_ :: _) => true
  | _ => false
  end.

(** An f-string field [{x}] whose value is a [str] or [None]. *)
Definition fstring_field (o : option str) : str :=
  match o with
  | Some s => s
  | None => lit "None"
  end.

(** Exceptions.  Every class here derives from [Exception]; [SystemExit]
    is not an exception of this type but an outcome of its own. *)
Inductive exn_class : Type :=
| FileNotFoundError
| TimeoutExpired
| ImportError
| KeyError
| TypeError
| OtherException (name : str).

Record exn : Type := { exn_cls : exn_class; exn_str : str }.

(** The [ModuleNotFoundError] of a failed [import requests]. *)
Definition no_module_requests : exn :=
  {| exn_cls := ImportError; exn_str := lit "No module named 'requests'" |}.

(** What [json.loads] can build. *)
#[warnings="-register-all"]
Inductive pyval : Type :=
| PNone
| PBool (b : bool)
| PInt (z : Z)
| PFloat (f : spec_float)
| PStr (s : str)
| PList (l : list pyval)
| PDict (d : list (str * pyval)).

(** Renderings fixed by the interpreter and not by the scripts: [repr] of
    a [str], [repr] of a [float], and the text of the [TypeError] raised
    when a value that is not a [dict] is indexed by a [str]. *)
Record runtime : Type := {
  repr_str : str -> str;
  repr_float : spec_float -> str;
  not_subscriptable : pyval -> str
}.

Fixpoint repr (rt : runtime) (v : pyval) : str :=
  match v with
  | PNone => lit "None"
  | PBool true => lit "True"
  | PBool false => lit "False"
  | PInt z => str_of_int z
  | PFloat f => repr_float rt f
  | PStr s => repr_str rt s
  | PList l => lit "[" ++ join (lit ", ") (map (repr rt) l) ++ lit "]"
  | PDict d =>
      lit "{"
      ++ join (lit ", ")
           (map (fun kv => repr_str rt (fst kv) ++ lit ": " ++ repr rt (snd kv)) d)
      ++ lit "}"
  end.

(** [str(v)], which is what an f-string field [{v}] inserts. *)
Definition py_str (rt : runtime) (v : pyval) : str :=
  match v with
  | PStr s => s
  | _ => repr rt v
  end.

Fixpoint dict_get (d : list (str * pyval)) (key : str) : option pyval :=
  match d with
  | [] => None
  | (k, v) :: d' => if str_eqb k key then Some v else dict_get d' key
  end.

(** [v[key]] for a [str] key. *)
Definition getitem (rt : runtime) (v : pyval) (key : str) : exn + pyval :=
  match v with
  | PDict d =>
      match dict_get d key with
      | Some x => inr x
      | None => inl {| exn_cls := KeyError; exn_str := repr_str rt key |}
      end
  | _ => inl {| exn_cls := TypeError; exn_str := not_subscriptable rt v |}
  end.

End Py.

Import Py.

(** ** Records exchanged with the outside *)

(** One entry of the catalog: a [dict] with the four keys [title], [body],
    [labels] and [milestone]. *)
Record issue : Type := {
  title : str;
  body : str;
  labels : list str;
  milestone : option Z
}.

Definition headers_t := list (str * str).

(** The attributes of a [requests.Response] the scripts read. *)
Record response : Type := {
  status_code : Z;
  text : str;
  json : exn + pyval
}.

(** The attributes of a [subprocess.CompletedProcess] the scripts read. *)
Record completed_process : Type := {
  returncode : Z;
  stdout : str
}.

(** ** Observable events *)

Inductive event : Type :=
| Stdout (s : str)
| Subprocess (argv : list str) (timeout : option Z)
| HttpGet (url : str) (headers : headers_t)
| HttpPost (url : str) (headers : headers_t) (payload : issue)
| Sleep (seconds : Z).

Definition trace := list event.

(** ** The world outside the scripts

    The server may answer according to everything that happened before,
    so both HTTP oracles see the trace so far. *)
Record world : Type := {
  python : runtime;
  sys_executable : str;
  environ : str -> option str;
  requests_installed : bool;
  requests_installable : bool;
  subprocess : list str -> option Z -> exn + completed_process;
  http_get : trace -> str -> headers_t -> exn + response;
  http_post : trace -> str -> headers_t -> issue -> exn + response
}.

(** ** The effect monad *)

Inductive outcome (A : Type) : Type :=
| Returns (a : A)
| Raises (e : exn)
| Exits (status : Z).

Arguments Returns {A} a.
Arguments Raises {A} e.
Arguments Exits {A} status.

Definition M (A : Type) : Type := world -> trace -> outcome A * trace.

Definition ret {A} (a : A) : M A := fun _ t => (Returns a, t).

Definition bind {A B} (m : M A) (k : A -> M B) : M B :=
  fun w t =>
    match m w t with
    | (Returns a, t') => k a w t'
    | (Raises e, t') => (Raises e, t')
    | (Exits c, t') => (Exits c, t')
    end.

Declare Scope py_scope.
Delimit Scope py_scope with py.
Notation "x <- m ;; k" := (bind m (fun x => k))
  (at level 100, m at next level, right associativity) : py_scope.
Notation "m ;; k" := (bind m (fun _ => k))
  (at level 100, right associativity) : py_scope.
Open Scope py_scope.

Definition emit (e : event) : M unit := fun _ t => (Returns tt, t ++ [e]).

Definition raise {A} (e : exn) : M A := fun _ t => (Raises e, t).

(** [sys.exit(status)]. *)
Definition sys_exit (status : Z) : M unit := fun _ t => (Exits status, t).

(** Lift a pure computation that may raise. *)
Definition lift {A} (r : exn + A) : M A :=
  match r with
  | inl e => raise e
  | inr a => ret a
  end.

(** [try: m  except <classes>: h]: an exception whose class is caught runs
    the handler, any other propagates; [SystemExit] always propagates. *)
Definition try_except {A} (m : M A) (caught : exn -> bool) (h : exn -> M A) : M A :=
  fun w t =>
    match m w t with
    | (Raises e, t') => if caught e then h e w t' else (Raises e, t')
    | r => r
    end.

(** [except Exception]. *)
Definition any_exception (e : exn) : bool := true.

(** [print(s)] and [print(s, end="")]. *)
Definition print (s : str) : M unit := emit (Stdout (s ++ [10%N])).
Definition print_end (s : str) : M unit := emit (Stdout s).

(** [time.sleep(seconds)]. *)
Definition time_sleep (seconds : Z) : M unit := emit (Sleep seconds).

(** [os.environ.get(name)]. *)
Definition os_environ_get (name : str) : M (option str) :=
  fun w t => (Returns (environ w name), t).

(** [sys.executable]. *)
Definition get_sys_executable : M str :=
  fun w t => (Returns (sys_executable w), t).

(** [subprocess.run(argv, capture_output=True, text=True, timeout=...)]. *)
Definition subprocess_run (argv : list str) (timeout : option Z) : M completed_process :=
  fun w t =>
    let t' := t ++ [Subprocess argv timeout] in
    match subprocess w argv timeout with
    | inl e => (Raises e, t')
    | inr p => (Returns p, t')
    end.

(** [requests.get(url, headers=headers)]. *)
Definition requests_get (url : str) (headers : headers_t) : M response :=
  fun w t =>
    let t' := t ++ [HttpGet url headers] in
    match http_get w t url headers with
    | inl e => (Raises e, t')
    | inr r => (Returns r, t')
    end.

(** [requests.post(url, headers=headers, json=payload)]. *)
Definition requests_post (url : str) (headers : headers_t) (payload : issue) : M response :=
  fun w t =>
    let t' := t ++ [HttpPost url headers payload] in
    match http_post w t url headers payload with
    | inl e => (Raises e, t')
    | inr r => (Returns r, t')
    end.

(** [response.json()]. *)
Definition response_json (r : response) : M pyval := lift (json r).

(** [v[key]] and the f-string field [{v}]. *)
Definition subscript (v : pyval) (key : str) : M pyval :=
  fun w t => lift (getitem (python w) v key) w t.

Definition format (v : pyval) : M str :=
  fun w t => (Returns (py_str (python w) v), t).

(** The exit status of the interpreter: 0 when the script runs off its
    end, the argument of [sys.exit], 1 after an uncaught exception. *)
Definition exit_status {A} (o : outcome A) : Z :=
  match o with
  | Returns _ => 0
  | Raises _ => 1
  | Exits c => c
  end.

(** A script is run from an empty trace. *)
Definition run {A} (m : M A) (w : world) : outcome A * trace := m w [].

(** ** create_issues.py *)

Module CreateIssues.

Definition REPO_OWNER : str := lit "SkanderMulder".
Definition REPO_NAME : str := lit "extractoR".
Definition API_URL : str :=
  lit "https://api.github.com/repos/" ++ REPO_OWNER ++ lit "/" ++ REPO_NAME ++ lit "/issues".

(** The [headers] dictionary built from a token. *)
Definition make_headers (token : str) : headers_t :=
  [ (lit "Authorization", lit "token " ++ token);
    (lit "Accept", lit "application/vnd.github.v3+json") ].

(** U+2713 and U+2717, the two marks that open a log line. *)
Definition check_mark : N := 10003.
Definition ballot_x : N := 10007.

(** [create_issue(issue_data)]; [headers] is the global it reads. *)
Definition create_issue (headers : headers_t) (issue_data : issue) : M bool :=
  try_except
    (response <- requests_post API_URL headers issue_data ;;
     if (status_code response =? 201)%Z then
       issue <- response_json response ;;
       number <- subscript issue (lit "number") ;;
       number_text <- format number ;;
       title_value <- subscript issue (lit "title") ;;
       title_text <- format title_value ;;
       print (check_mark :: lit " Created issue #" ++ number_text ++ lit ": " ++ title_text) ;;
       ret true
     else
       print (ballot_x :: lit " Failed to create issue: " ++ title issue_data) ;;
       print (lit "  Status: " ++ str_of_int (status_code response)) ;;
       print (lit "  Response: " ++ text response) ;;
       ret false)
    any_exception
    (fun e =>
       print (ballot_x :: lit " Error creating issue: " ++ title issue_data) ;;
       print (lit "  Error: " ++ exn_str e) ;;
       ret false).

(** The f-string [[{i}/{len(issues)}] ] that opens the line of a record. *)
Definition progress (i total : Z) : str :=
  lit "[" ++ str_of_int i ++ lit "/" ++ str_of_int total ++ lit "] ".

(** One turn of the [for i, issue in enumerate(issues, 1)] loop of [main];
    [total] is [len(issues)] and the pair is [(created, failed)]. *)
Definition loop_body (headers : headers_t) (total i : Z) (issue_data : issue)
    (tally : Z * Z) : M (Z * Z) :=
  let (created, failed) := tally in
  print_end (progress i total) ;;
  ok <- create_issue headers issue_data ;;
  let tally' := if ok then (created + 1, failed)%Z else (created, failed + 1)%Z in
  (if (i <? total)%Z then time_sleep 1 else ret tt) ;;
  ret tally'.

Fixpoint loop (headers : headers_t) (total i : Z) (rest : list issue)
    (tally : Z * Z) : M (Z * Z) :=
  match rest with
  | [] => ret tally
  | issue_data :: rest' =>
      tally' <- loop_body headers total i issue_data tally ;;
      loop headers total (i + 1) rest' tally'
  end.

(** The block printed after the loop. *)
Definition summary (created failed total : Z) : M unit :=
  print [] ;;
  print (str_times (lit "=") 60) ;;
  print (lit "Summary:") ;;
  print (lit "  Created: " ++ str_of_int created) ;;
  print (lit "  Failed: " ++ str_of_int failed) ;;
  print (lit "  Total: " ++ str_of_int total) ;;
  print (str_times (lit "=") 60).

(** [main()]; [headers] and [issues] are the globals it reads. *)
Definition main (headers : headers_t) (issues : list issue) : M unit :=
  let total := Z.of_nat (length issues) in
  print (lit "Creating " ++ str_of_int total ++ lit " issues for "
         ++ REPO_OWNER ++ lit "/" ++ REPO_NAME ++ lit "...") ;;
  print [] ;;
  tally <- loop headers total 1 issues (0, 0)%Z ;;
  summary (fst tally) (snd tally) total ;;
  if (snd tally >? 0)%Z then sys_exit 1 else ret tt.

(** [import requests] at the top of the file. *)
Definition import_requests : M unit :=
  fun w t =>
    if requests_installed w then (Returns tt, t) else (Raises no_module_requests, t).

(** The statements of the file after its imports, in order: the token
    check, the [headers] global, the definitions, and the guarded call of
    [main].  [name] is the value of [__name__]; the result is the [headers]
    global the file leaves behind. *)
Definition module_body (issues : list issue) (name : str) : M headers_t :=
  GITHUB_TOKEN <- os_environ_get (lit "GITHUB_TOKEN") ;;
  (if negb (truthy GITHUB_TOKEN) then
     print (lit "Error: GITHUB_TOKEN environment variable not set") ;;
     print (lit "Please set it with: export GITHUB_TOKEN='your_token_here'") ;;
     sys_exit 1
   else ret tt) ;;
  let headers := make_headers (fstring_field GITHUB_TOKEN) in
  (if str_eqb name (lit "__main__") then main headers issues else ret tt) ;;
  ret headers.

(** [python create_issues.py]. *)
Definition script (issues : list issue) : M unit :=
  import_requests ;;
  module_body issues (lit "__main__") ;;
  ret tt.

End CreateIssues.

(** ** create_issues_direct.py *)

Module CreateIssuesDirect.

Import CreateIssues.

Definition helper_argv : list str := [lit "gh"; lit "auth"; lit "token"].

Definition helper_failure (e : exn) : bool :=
  match exn_cls e with
  | FileNotFoundError | TimeoutExpired => true
  | _ => false
  end.

(** [get_github_token()]. *)
Definition get_github_token : M (option str) :=
  token <- os_environ_get (lit "GITHUB_TOKEN") ;;
  if truthy token then ret token
  else
    found <- try_except
      (result <- subprocess_run helper_argv (Some 5%Z) ;;
       if (returncode result =? 0)%Z then ret (Some (Some (strip (stdout result))))
       else ret None)
      helper_failure
      (fun _ => ret None) ;;
    match found with
    | Some value => ret value
    | None => ret None
    end.

Definition is_ImportError (e : exn) : bool :=
  match exn_cls e with
  | ImportError => true
  | _ => false
  end.

(** [import requests] once pip has run. *)
Definition import_requests_after_install : M unit :=
  fun w t =>
    if requests_installable w then (Returns tt, t) else (Raises no_module_requests, t).

(** The [try: import requests / except ImportError:] block. *)
Definition import_requests_or_install : M unit :=
  try_except
    import_requests
    is_ImportError
    (fun _ =>
       print (lit "Installing requests library...") ;;
       python_exe <- get_sys_executable ;;
       _ <- subprocess_run
              [python_exe; lit "-m"; lit "pip"; lit "install"; lit "requests"; lit "-q"]
              None ;;
       import_requests_after_install).

Definition REPO_URL : str :=
  lit "https://api.github.com/repos/" ++ REPO_OWNER ++ lit "/" ++ REPO_NAME.

(** The text printed when no token is found. *)
Definition token_required : M unit :=
  print (str_times (lit "=") 70) ;;
  print (lit "GITHUB TOKEN REQUIRED") ;;
  print (str_times (lit "=") 70) ;;
  print [] ;;
  print (lit "I need a GitHub personal access token to create issues.") ;;
  print [] ;;
  print (lit "Please:") ;;
  print (lit "1. Go to: https://github.com/settings/tokens/new") ;;
  print (lit "2. Create a token with 'repo' scope") ;;
  print (lit "3. Run: export GITHUB_TOKEN='your_token_here'") ;;
  print (lit "4. Run this script again") ;;
  print [].

(** [python create_issues_direct.py].  The file is run as a script, so
    [__name__] is ["__main__"] in the globals in which [exec] runs the
    text of create_issues.py; the imports of that text find their modules
    loaded.  After [exec] the names [headers] and [main] are those the
    executed text bound. *)
Definition script (issues : list issue) : M unit :=
  import_requests_or_install ;;
  token <- get_github_token ;;
  (if negb (truthy token) then
     token_required ;;
     sys_exit 1
   else ret tt) ;;
  let headers := make_headers (fstring_field token) in
  print (lit "Testing GitHub authentication...") ;;
  test_response <- requests_get REPO_URL headers ;;
  (if negb (status_code test_response =? 200)%Z then
     print (ballot_x :: lit " Authentication failed: "
            ++ str_of_int (status_code test_response)) ;;
     print (lit "Response: " ++ text test_response) ;;
     sys_exit 1
   else ret tt) ;;
  print (check_mark :: lit " Authentication successful!") ;;
  print [] ;;
  headers' <- module_body issues (lit "__main__") ;;
  main headers' issues.

End CreateIssuesDirect.

(** ** Reading a trace *)

Module Observe.

Import CreateIssues CreateIssuesDirect.

Definition is_post (e : event) : bool :=
  match e with
  | HttpPost _ _ _ => true
  | _ => false
  end.

Definition is_get (e : event) : bool :=
  match e with
  | HttpGet _ _ => true
  | _ => false
  end.

Definition is_sleep (e : event) : bool :=
  match e with
  | Sleep _ => true
  | _ => false
  end.

(** The submission attempts of a trace, in order. *)
Definition posts (t : trace) : trace := filter is_post t.

(** The authentication checks of a trace. *)
Definition gets (t : trace) : trace := filter is_get t.

(** The pauses of a trace. *)
Definition sleeps (t : trace) : trace := filter is_sleep t.

(** The submission attempts and the pauses of a trace, in order. *)
Definition pacing (t : trace) : trace := filter (fun e => is_post e || is_sleep e) t.

(** Everything written to standard output, concatenated. *)
Fixpoint printed (t : trace) : str :=
  match t with
  | [] => []
  | Stdout s :: t' => s ++ printed t'
  | _ :: t' => printed t'
  end.

(** [needle] occurs in [hay]. *)
Definition includes (needle hay : str) : Prop :=
  exists before after, hay = before ++ needle ++ after.

(** A decision procedure for [includes]. *)
Fixpoint starts_with (needle hay : str) : bool :=
  match needle, hay with
  | [], _ => true
  | c :: needle', d :: hay' => N.eqb c d && starts_with needle' hay'
  | _ :: _, [] => false
  end.

Fixpoint includesb (needle hay : str) : bool :=
  starts_with needle hay
  || match hay with
     | [] => false
     | _ :: hay' => includesb needle hay'
     end.

(** The exception raised inside the [try] block of [create_issue], if any,
    as a function of the answer to the POST request: the request itself,
    [response.json()], [issue['number']] and [issue['title']] may raise,
    in this order, the last three on a 201 answer only. *)
Definition attempt_exception (rt : runtime) (answer : exn + response) : option exn :=
  match answer with
  | inl e => Some e
  | inr r =>
      if (status_code r =? 201)%Z then
        match json r with
        | inl e => Some e
        | inr v =>
            match getitem rt v (lit "number") with
            | inl e => Some e
            | inr _ =>
                match getitem rt v (lit "title") with
                | inl e => Some e
                | inr _ => None
                end
            end
        end
      else None
  end.

(** The answer to a POST request is a 201 whose body yields both fields
    of the success line: the attempt succeeds and raises nothing. *)
Definition accepted (rt : runtime) (answer : exn + response) : Prop :=
  exists r, answer = inr r
            /\ status_code r = 201%Z
            /\ attempt_exception rt (inr r) = None.

(** Every submission attempt that [final] records after its first [start]
    events was accepted by the server. *)
Definition attempts_accepted (w : world) (start : nat) (final : trace) : Prop :=
  forall pre url headers x post,
    final = pre ++ HttpPost url headers x :: post ->
    start <= length pre ->
    accepted (python w) (http_post w pre url headers x).

(** The schedule the specification asks for: the records in catalog
    order, a pause of one second between two neighbours and none after
    the last. *)
Fixpoint paced (headers : headers_t) (issues : list issue) : trace :=
  match issues with
  | [] => []
  | [x] => [HttpPost API_URL headers x]
  | x :: rest => HttpPost API_URL headers x :: Sleep 1 :: paced headers rest
  end.

(** The helper gives no token: it is absent, or too slow, or it exits
    with a status other than 0. *)
Definition helper_unavailable (w : world) : bool :=
  match subprocess w helper_argv (Some 5%Z) with
  | inl e => helper_failure e
  | inr p => negb (returncode p =? 0)%Z
  end.

(** What the first script prints when the variable is missing. *)
Definition token_missing_events : trace :=
  map (fun s => Stdout (s ++ [10%N]))
    [ lit "Error: GITHUB_TOKEN environment variable not set";
      lit "Please set it with: export GITHUB_TOKEN='your_token_here'" ].

(** What the second script prints when no token is found. *)
Definition token_required_events : trace :=
  map (fun s => Stdout (s ++ [10%N]))
    [ str_times (lit "=") 70;
      lit "GITHUB TOKEN REQUIRED";
      str_times (lit "=") 70;
      [];
      lit "I need a GitHub personal access token to create issues.";
      [];
      lit "Please:";
      lit "1. Go to: https://github.com/settings/tokens/new";
      lit "2. Create a token with 'repo' scope";
      lit "3. Run: export GITHUB_TOKEN='your_token_here'";
      lit "4. Run this script again";
      [] ].

(** The number of [True] and of [False] verdicts in a list of verdicts. *)
Definition created_count (verdicts : list bool) : Z :=
  Z.of_nat (length (filter (fun ok => ok) verdicts)).

Definition failed_count (verdicts : list bool) : Z :=
  Z.of_nat (length (filter negb verdicts)).

(** [ok] is the verdict [create_issue] reaches for [x] at some point of
    the run. *)
Definition verdict_of (w : world) (headers : headers_t) (x : issue) (ok : bool) : Prop :=
  exists t, fst (create_issue headers x w t) = Returns ok.

(** The two lines [main] prints before its loop. *)
Definition banner_events (total : Z) : trace :=
  [ Stdout ((lit "Creating " ++ str_of_int total ++ lit " issues for "
             ++ REPO_OWNER ++ lit "/" ++ REPO_NAME ++ lit "...") ++ [10%N]);
    Stdout [10%N] ].

(** The events of the summary block for a given tally. *)
Definition summary_events (created failed total : Z) : trace :=
  map (fun s => Stdout (s ++ [10%N]))
    [ [];
      str_times (lit "=") 60;
      lit "Summary:";
      lit "  Created: " ++ str_of_int created;
      lit "  Failed: " ++ str_of_int failed;
      lit "  Total: " ++ str_of_int total;
      str_times (lit "=") 60 ].

End Observe.

(** ** Concrete environments

    Worlds and a short catalog on which the scripts are evaluated. *)

Module Samples.

Import CreateIssues CreateIssuesDirect Observe.

(** Renderings of CPython 3.11 for the values the sample servers send:
    [repr] of a quote-free printable ASCII string and the messages of the
    [TypeError] of a subscript.  No sample answer holds a float; only the
    special ones are rendered as CPython does. *)
Definition plain_runtime : runtime :=
  {| repr_str := fun s => lit "'" ++ s ++ lit "'";
     repr_float := fun f =>
       match f with
       | S754_zero false => lit "0.0"
       | S754_zero true => lit "-0.0"
       | S754_infinity false => lit "inf"
       | S754_infinity true => lit "-inf"
       | _ => lit "nan"
       end;
     not_subscriptable := fun v =>
       match v with
       | PNone => lit "'NoneType' object is not subscriptable"
       | PBool _ => lit "'bool' object is not subscriptable"
       | PInt _ => lit "'int' object is not subscriptable"
       | PFloat _ => lit "'float' object is not subscriptable"
       | PStr _ => lit "string indices must be integers, not 'str'"
       | PList _ => lit "list indices must be integers or slices, not str"
       | PDict _ => []
       end |}.

Definition issue_a : issue :=
  {| title := lit "Run full CRAN checks and fix all NOTEs/WARNINGs";
     body := lit "Run comprehensive CRAN checks.";
     labels := [lit "cran"; lit "priority-high"; lit "phase-1"];
     milestone := None |}.

Definition issue_b : issue :=
  {| title := lit "Set up comprehensive GitHub Actions CI pipeline";
     body := lit "Implement GitHub Actions workflows.";
     labels := [lit "ci-cd"; lit "priority-high"; lit "phase-1"; lit "good-first-issue"];
     milestone := None |}.

Definition issue_c : issue :=
  {| title := lit "Post to r/rstats";
     body := lit "Write engaging post.";
     labels := [lit "community"; lit "priority-high"; lit "quick-win"];
     milestone := None |}.

Definition catalog : list issue := [issue_a; issue_b; issue_c].

(** A server answer 201 carrying the new issue as JSON; the number is one
    more than the count of earlier POST requests. *)
Definition created_response (t : trace) (payload : issue) : response :=
  {| status_code := 201;
     text := lit "{...}";
     json := inr (PDict [ (lit "number", PInt (Z.of_nat (S (length (filter is_post t)))));
                          (lit "title", PStr (title payload)) ]) |}.

Definition plain_response (code : Z) (message : str) : response :=
  {| status_code := code;
     text := message;
     json := inr (PDict [(lit "message", PStr message)]) |}.

Definition connection_error : exn :=
  {| exn_cls := OtherException (lit "ConnectionError");
     exn_str := lit "Connection aborted." |}.

Definition gh_missing : exn :=
  {| exn_cls := FileNotFoundError;
     exn_str := lit "[Errno 2] No such file or directory: 'gh'" |}.

Definition gh_timeout : exn :=
  {| exn_cls := TimeoutExpired;
     exn_str := lit "Command '['gh', 'auth', 'token']' timed out after 5 seconds" |}.

(** A cooperative world: the variable is set to [token] when given, the
    helper answers [helper], the server accepts everything. *)
Definition make_world (token : option str) (helper : exn + completed_process) : world :=
  {| python := plain_runtime;
     sys_executable := lit "/usr/bin/python3";
     environ := fun name => if str_eqb name (lit "GITHUB_TOKEN") then token else None;
     requests_installed := true;
     requests_installable := true;
     subprocess := fun _ _ => helper;
     http_get := fun _ _ _ => inr (plain_response 200 (lit "{...}"));
     http_post := fun t _ _ payload => inr (created_response t payload) |}.

Definition with_get (w : world) (answer : exn + response) : world :=
  {| python := python w;
     sys_executable := sys_executable w;
     environ := environ w;
     requests_installed := requests_installed w;
     requests_installable := requests_installable w;
     subprocess := subprocess w;
     http_get := fun _ _ _ => answer;
     http_post := http_post w |}.

Definition with_post (w : world)
    (answer : trace -> issue -> exn + response) : world :=
  {| python := python w;
     sys_executable := sys_executable w;
     environ := environ w;
     requests_installed := requests_installed w;
     requests_installable := requests_installable w;
     subprocess := subprocess w;
     http_get := http_get w;
     http_post := fun t _ _ payload => answer t payload |}.

(** The variable is set; everything succeeds. *)
Definition world_env : world :=
  make_world (Some (lit "ghp_env")) (inl gh_missing).

(** The variable is unset; [gh auth token] prints a token and exits 0. *)
Definition world_helper : world :=
  make_world None (inr {| returncode := 0; stdout := lit "gho_helper" ++ [10%N] |}).

(** The variable is unset and [gh] is not installed. *)
Definition world_no_helper : world := make_world None (inl gh_missing).

(** The variable is unset and [gh] does not answer in time. *)
Definition world_slow_helper : world := make_world None (inl gh_timeout).

(** The variable is unset and [gh] exits with status 1. *)
Definition world_logged_out : world :=
  make_world None (inr {| returncode := 1; stdout := [] |}).

(** The variable is unset; [gh] exits 0 and prints a blank line. *)
Definition world_blank_helper : world :=
  make_world None (inr {| returncode := 0; stdout := [32%N; 10%N] |}).

(** The variable is set but the server rejects the token. *)
Definition world_rejected : world :=
  with_get world_env (inr (plain_response 401 (lit "Bad credentials"))).

(** The server answers 422 to [issue_b] and accepts the others. *)
Definition world_422 : world :=
  with_post world_env
    (fun t payload =>
       if str_eqb (title payload) (title issue_b)
       then inr (plain_response 422 (lit "Validation Failed"))
       else inr (created_response t payload)).

(** The connection breaks while [issue_a] is posted. *)
Definition world_flaky : world :=
  with_post world_env
    (fun t payload =>
       if str_eqb (title payload) (title issue_a)
       then inl connection_error
       else inr (created_response t payload)).

(** Status 201 with a body that is not a JSON object. *)
Definition world_garbled : world :=
  with_post world_env
    (fun _ _ => inr {| status_code := 201; text := lit "[]"; json := inr (PList []) |}).

End Samples.

(** ** More to read from a trace *)

Module Marks.

Import CreateIssues CreateIssuesDirect Observe.

(** The event that stands just before each POST request of a trace. *)
Fixpoint before_posts (t : trace) : list event :=
  match t with
  | [] => []
  | e :: t' =>
      match t' with
      | HttpPost _ _ _ :: _ => e :: before_posts t'
      | _ => before_posts t'
      end
  end.

(** The [n] integers from [i] on. *)
Fixpoint count_from (i : Z) (n : nat) : list Z :=
  match n with
  | O => []
  | S n' => i :: count_from (i + 1) n'
  end.

(** The call of pip made when [requests] cannot be imported. *)
Definition pip_call (w : world) : event :=
  Subprocess
    [sys_executable w; lit "-m"; lit "pip"; lit "install"; lit "requests"; lit "-q"]
    None.

(** The two events of the authentication check made with [token]. *)
Definition check_events (token : str) : trace :=
  [ Stdout (lit "Testing GitHub authentication..." ++ [10%N]);
    HttpGet REPO_URL (make_headers token) ].

(** The two lines printed after a check answered with 200. *)
Definition check_passed_events : trace :=
  [ Stdout ((check_mark :: lit " Authentication successful!") ++ [10%N]);
    Stdout [10%N] ].

(** Everything one call of [main] adds to the trace when [body] is what
    its loop adds and [verdicts] are the verdicts of its records. *)
Definition pass_events (total : Z) (body : trace) (verdicts : list bool) : trace :=
  banner_events total ++ body
  ++ summary_events (created_count verdicts) (failed_count verdicts) total.

End Marks.

(** ** Environments with faults *)

Module Faults.

Import CreateIssues CreateIssuesDirect Observe Samples.

Definition with_requests (w : world) (installed installable : bool) : world :=
  {| python := python w;
     sys_executable := sys_executable w;
     environ := environ w;
     requests_installed := installed;
     requests_installable := installable;
     subprocess := subprocess w;
     http_get := http_get w;
     http_post := http_post w |}.

(** The check is answered 204: a success status that is not 200. *)
Definition world_no_content : world :=
  with_get world_env (inr (plain_response 204 [])).

(** The network is down when the check is made. *)
Definition world_offline : world := with_get world_env (inl connection_error).

Definition gh_denied : exn :=
  {| exn_cls := OtherException (lit "PermissionError");
     exn_str := lit "[Errno 13] Permission denied: 'gh'" |}.

(** The variable is unset and [gh] may not be executed. *)
Definition world_gh_denied : world := make_world None (inl gh_denied).

(** [requests] is missing and pip, which exits with status 1, does not
    provide it.  In this world every subprocess exits with status 1. *)
Definition world_no_requests : world :=
  with_requests
    (make_world (Some (lit "ghp_env")) (inr {| returncode := 1; stdout := [] |}))
    false false.

(** [requests] is missing and pip installs it. *)
Definition world_pip : world :=
  with_requests
    (make_world (Some (lit "ghp_env")) (inr {| returncode := 0; stdout := [] |}))
    false true.

(** Status 201 with a JSON object that has no [number]. *)
Definition world_no_number : world :=
  with_post world_env
    (fun _ payload =>
       inr {| status_code := 201;
              text := lit "{...}";
              json := inr (PDict [(lit "title", PStr (title payload))]) |}).

End Faults.

(** * Properties *)

(** ** Strings *)

Section Strings.

Import Observe.

Lemma str_eqb_refl (s : str) : str_eqb s s = true.
Proof. induction s as [| c s IH]; [reflexivity |]. cbn. now rewrite N.eqb_refl. Qed.

Lemma forallb_rev {A} (f : A -> bool) (l : list A) :
  forallb f l = true -> forallb f (rev l) = true.
Proof.
  rewrite !forallb_forall. intros H x Hx. apply H. now apply in_rev.
Qed.

(** [lstrip] removes a prefix of white space and leaves no white space in
    front. *)
Lemma lstrip_spec (s : str) :
  exists l,
    s = l ++ lstrip s
    /\ forallb isspace l = true
    /\ match lstrip s with [] => True | c :: _ => isspace c = false end.
Proof.
  induction s as [| c s (l & Hs & Hl & Hc)].
  - exists []. cbn. auto.
  - cbn [lstrip]. destruct (isspace c) eqn:E.
    + exists (c :: l). cbn. rewrite E, Hl. repeat split; auto. now f_equal.
    + exists []. cbn. auto.
Qed.

(** [strip] removes white space at both ends, and all of it. *)
Lemma strip_spec (s : str) :
  exists l r,
    s = l ++ strip s ++ r
    /\ forallb isspace l = true
    /\ forallb isspace r = true
    /\ match strip s with [] => True | c :: _ => isspace c = false end
    /\ match rev (strip s) with [] => True | c :: _ => isspace c = false end.
Proof.
  destruct (lstrip_spec s) as (l & Hs & Hl & Hc).
  destruct (lstrip_spec (rev (lstrip s))) as (r & Hr & Hrs & Hrc).
  exists l, (rev r). unfold strip, rstrip.
  assert (Hu : lstrip s = rev (lstrip (rev (lstrip s))) ++ rev r).
  { rewrite <- rev_app_distr, <- Hr, rev_involutive. reflexivity. }
  repeat split.
  - rewrite <- Hu. exact Hs.
  - exact Hl.
  - now apply forallb_rev.
  - destruct (rev (lstrip (rev (lstrip s)))) as [| c u] eqn:E; [exact I |].
    rewrite Hu in Hc. exact Hc.
  - rewrite rev_involutive. exact Hrc.
Qed.

Lemma lstrip_blank (s : str) : forallb isspace s = true -> lstrip s = [].
Proof.
  induction s as [| c s IH]; [reflexivity |].
  cbn. destruct (isspace c); [exact IH | discriminate].
Qed.

(** White space only strips to the empty string, which is false. *)
Lemma strip_blank (s : str) : forallb isspace s = true -> strip s = [].
Proof. intros H. unfold strip. now rewrite (lstrip_blank s H). Qed.

Lemma strip_empty_blank (s : str) : strip s = [] -> forallb isspace s = true.
Proof.
  intros H. destruct (strip_spec s) as (l & r & Hs & Hl & Hr & _).
  rewrite H in Hs. rewrite Hs, forallb_app, Hl. exact Hr.
Qed.

Lemma starts_with_sound (needle hay : str) :
  starts_with needle hay = true -> exists after, hay = needle ++ after.
Proof.
  revert hay. induction needle as [| c needle IH]; intros hay H.
  - exists hay. reflexivity.
  - destruct hay as [| d hay]; [discriminate |].
    cbn in H. apply andb_prop in H as [Hc Hn].
    apply N.eqb_eq in Hc. subst d.
    destruct (IH hay Hn) as (after & ->). exists after. reflexivity.
Qed.

Lemma includesb_sound (needle hay : str) :
  includesb needle hay = true -> includes needle hay.
Proof.
  induction hay as [| d hay IH]; intros H.
  - cbn in H. rewrite orb_false_r in H.
    destruct (starts_with_sound _ _ H) as (after & E). exists [], after. exact E.
  - cbn [includesb] in H. apply orb_prop in H as [H | H].
    + destruct (starts_with_sound _ _ H) as (after & E). exists [], after. exact E.
    + destruct (IH H) as (before & after & ->). exists (d :: before), after. reflexivity.
Qed.

Lemma includes_app_r (needle a b : str) : includes needle b -> includes needle (a ++ b).
Proof.
  intros (before & after & ->). exists (a ++ before), after. now rewrite app_assoc.
Qed.

Lemma includes_app_l (needle a b : str) : includes needle a -> includes needle (a ++ b).
Proof.
  intros (before & after & ->). exists before, (after ++ b). now rewrite <- !app_assoc.
Qed.

End Strings.

(** ** Running the primitives *)

Arguments lit : simpl never.
Arguments str_of_int : simpl never.
Arguments str_times : simpl never.

Section Steps.

Variables (A B : Type) (w : world) (t : trace).

Lemma bind_returns (m : M A) (k : A -> M B) (a : A) (t' : trace) :
  m w t = (Returns a, t') -> bind m k w t = k a w t'.
Proof. intros H. unfold bind. rewrite H. reflexivity. Qed.

Lemma bind_raises (m : M A) (k : A -> M B) (e : exn) (t' : trace) :
  m w t = (Raises e, t') -> bind m k w t = (Raises e, t').
Proof. intros H. unfold bind. rewrite H. reflexivity. Qed.

Lemma bind_exits (m : M A) (k : A -> M B) (c : Z) (t' : trace) :
  m w t = (Exits c, t') -> bind m k w t = (Exits c, t').
Proof. intros H. unfold bind. rewrite H. reflexivity. Qed.

Lemma bind_emit (e : event) (k : unit -> M B) :
  bind (emit e) k w t = k tt w (t ++ [e]).
Proof. reflexivity. Qed.

Lemma bind_print (s : str) (k : unit -> M B) :
  bind (print s) k w t = k tt w (t ++ [Stdout (s ++ [10%N])]).
Proof. reflexivity. Qed.

End Steps.

(** Flatten the trace an evaluation has built. *)
Ltac flatten_trace :=
  repeat first [rewrite <- app_assoc | progress cbn [app]].

(** ** One submission attempt *)

Section Attempt.

Import CreateIssues Observe.

Variables (w : world) (headers : headers_t) (issue_data : issue) (t : trace).

(** The two lines of the [except] branch. *)
Lemma create_issue_raised (e : exn) :
  attempt_exception (python w) (http_post w t API_URL headers issue_data) = Some e ->
  create_issue headers issue_data w t =
    (Returns false,
     t ++ [ HttpPost API_URL headers issue_data;
            Stdout ((ballot_x :: lit " Error creating issue: " ++ title issue_data) ++ [10%N]);
            Stdout ((lit "  Error: " ++ exn_str e) ++ [10%N]) ]).
Proof.
  unfold attempt_exception, create_issue, try_except, bind, requests_post,
    response_json, subscript, format, lift, raise, ret, any_exception, print, emit.
  destruct (http_post w t API_URL headers issue_data) as [e0 | r].
  - intros [= ->]. flatten_trace. reflexivity.
  - destruct (status_code r =? 201)%Z; [| discriminate].
    destruct (json r) as [e1 | v].
    + intros [= ->]. flatten_trace. reflexivity.
    + destruct (getitem (python w) v (lit "number")) as [e2 | n].
      * intros [= ->]. flatten_trace. reflexivity.
      * destruct (getitem (python w) v (lit "title")) as [e3 | ti].
        -- intros [= ->]. flatten_trace. reflexivity.
        -- discriminate.
Qed.

(** The three lines of a refusal. *)
Lemma create_issue_refused (r : response) :
  http_post w t API_URL headers issue_data = inr r ->
  status_code r <> 201%Z ->
  create_issue headers issue_data w t =
    (Returns false,
     t ++ [ HttpPost API_URL headers issue_data;
            Stdout ((ballot_x :: lit " Failed to create issue: " ++ title issue_data) ++ [10%N]);
            Stdout ((lit "  Status: " ++ str_of_int (status_code r)) ++ [10%N]);
            Stdout ((lit "  Response: " ++ text r) ++ [10%N]) ]).
Proof.
  intros Hr Hs.
  unfold create_issue, try_except, bind, requests_post, ret, print, emit.
  rewrite Hr. apply Z.eqb_neq in Hs. rewrite Hs.
  flatten_trace. reflexivity.
Qed.

(** The line of a success. *)
Lemma create_issue_created (r : response) (v number title_value : pyval) :
  http_post w t API_URL headers issue_data = inr r ->
  status_code r = 201%Z ->
  json r = inr v ->
  getitem (python w) v (lit "number") = inr number ->
  getitem (python w) v (lit "title") = inr title_value ->
  create_issue headers issue_data w t =
    (Returns true,
     t ++ [ HttpPost API_URL headers issue_data;
            Stdout ((check_mark :: lit " Created issue #" ++ py_str (python w) number
                     ++ lit ": " ++ py_str (python w) title_value) ++ [10%N]) ]).
Proof.
  intros Hr Hs Hj Hn Ht.
  unfold create_issue, try_except, bind, requests_post,
    response_json, subscript, format, lift, ret, print, emit.
  rewrite Hr, Hs. cbv beta iota. rewrite Z.eqb_refl, Hj. cbv beta iota.
  rewrite Hn. cbv beta iota. rewrite Ht. cbv beta iota.
  flatten_trace. reflexivity.
Qed.

(** Whatever the server does, [create_issue] returns a verdict: it
    neither raises nor exits, sends one request and prints after it. *)
Lemma create_issue_returns :
  exists (ok : bool) (lines : list str),
    create_issue headers issue_data w t =
      (Returns ok, t ++ HttpPost API_URL headers issue_data :: map Stdout lines)
    /\ (ok = true <->
        accepted (python w) (http_post w t API_URL headers issue_data)).
Proof.
  destruct (attempt_exception (python w) (http_post w t API_URL headers issue_data))
    as [e |] eqn:Hx.
  - exists false. eexists [_; _]. split.
    + rewrite (create_issue_raised e Hx). reflexivity.
    + split; [discriminate |].
      intros (r & Hr & _ & Hn). rewrite Hr in Hx. congruence.
  - destruct (http_post w t API_URL headers issue_data) as [e | r] eqn:Hr;
      [discriminate |].
    destruct (Z.eq_dec (status_code r) 201) as [Hs | Hs].
    + pose proof Hx as Hx'. unfold attempt_exception in Hx'.
      apply Z.eqb_eq in Hs. rewrite Hs in Hx'. apply Z.eqb_eq in Hs.
      destruct (json r) as [? | v] eqn:Hj; [discriminate |].
      destruct (getitem (python w) v (lit "number")) as [? | n] eqn:Hn; [discriminate |].
      destruct (getitem (python w) v (lit "title")) as [? | ti] eqn:Ht; [discriminate |].
      exists true. eexists [_]. split.
      * rewrite (create_issue_created r v n ti Hr Hs Hj Hn Ht). reflexivity.
      * split; [| reflexivity]. intros _. exists r. auto.
    + exists false. eexists [_; _; _]. split.
      * rewrite (create_issue_refused r Hr Hs). reflexivity.
      * split; [discriminate |]. intros (r' & [= <-] & Hs' & _). contradiction.
Qed.

End Attempt.

(** ** Reading traces *)

Section TraceFacts.

Import CreateIssues Observe.

Lemma posts_app (a b : trace) : posts (a ++ b) = posts a ++ posts b.
Proof. apply filter_app. Qed.

Lemma gets_app (a b : trace) : gets (a ++ b) = gets a ++ gets b.
Proof. apply filter_app. Qed.

Lemma sleeps_app (a b : trace) : sleeps (a ++ b) = sleeps a ++ sleeps b.
Proof. apply filter_app. Qed.

Lemma pacing_app (a b : trace) : pacing (a ++ b) = pacing a ++ pacing b.
Proof. apply filter_app. Qed.

Lemma printed_app (a b : trace) : printed (a ++ b) = printed a ++ printed b.
Proof.
  induction a as [| e a IH]; [reflexivity |].
  destruct e; cbn; rewrite IH; try reflexivity.
  now rewrite app_assoc.
Qed.

Lemma stdout_silent (lines : list str) (keep : event -> bool) :
  (forall s, keep (Stdout s) = false) -> filter keep (map Stdout lines) = [].
Proof.
  intros H. induction lines as [| s lines IH]; [reflexivity |].
  cbn. now rewrite H.
Qed.

Lemma posts_stdout lines : posts (map Stdout lines) = [].
Proof. now apply stdout_silent. Qed.

Lemma gets_stdout lines : gets (map Stdout lines) = [].
Proof. now apply stdout_silent. Qed.

Lemma pacing_stdout lines : pacing (map Stdout lines) = [].
Proof. now apply stdout_silent. Qed.

Lemma counts_add (verdicts : list bool) :
  (created_count verdicts + failed_count verdicts)%Z = Z.of_nat (length verdicts).
Proof.
  unfold created_count, failed_count.
  induction verdicts as [| [] verdicts IH]; cbn [filter negb length]; lia.
Qed.

Lemma created_count_cons ok verdicts :
  created_count (ok :: verdicts) = ((if ok then 1 else 0) + created_count verdicts)%Z.
Proof. unfold created_count. destruct ok; cbn [filter length]; lia. Qed.

Lemma failed_count_cons ok verdicts :
  failed_count (ok :: verdicts) = ((if ok then 0 else 1) + failed_count verdicts)%Z.
Proof. unfold failed_count. destruct ok; cbn [filter negb length]; lia. Qed.

Lemma counts_all_true (n : nat) :
  created_count (repeat true n) = Z.of_nat n /\ failed_count (repeat true n) = 0%Z.
Proof.
  unfold created_count, failed_count.
  induction n as [| n [IHc IHf]]; cbn [repeat filter negb length]; split; lia.
Qed.

Lemma attempts_accepted_prefix (w : world) (n : nat) (a b : trace) :
  attempts_accepted w n (a ++ b) -> attempts_accepted w n a.
Proof.
  intros H pre url headers x post E Hn.
  apply (H pre url headers x (post ++ b)); [| exact Hn].
  rewrite E, <- app_assoc. reflexivity.
Qed.

Lemma attempts_accepted_later (w : world) (n m : nat) (final : trace) :
  n <= m -> attempts_accepted w n final -> attempts_accepted w m final.
Proof.
  intros Hnm H pre url headers x post E Hm.
  apply (H pre url headers x post E). lia.
Qed.

Lemma counts_nonneg verdicts :
  (0 <= created_count verdicts)%Z /\ (0 <= failed_count verdicts)%Z.
Proof. unfold created_count, failed_count. lia. Qed.

End TraceFacts.

(** ** The loop of [main] *)

Section Runner.

Import CreateIssues Observe.

Variables (w : world) (headers : headers_t).

(** One turn, given the verdict of its attempt. *)
Lemma loop_body_run (total i : Z) (x : issue) (created failed : Z) (t t1 : trace)
    (ok : bool) :
  create_issue headers x w (t ++ [Stdout (progress i total)]) = (Returns ok, t1) ->
  loop_body headers total i x (created, failed) w t =
    (Returns (if ok then (created + 1, failed)%Z else (created, failed + 1)%Z),
     t1 ++ (if (i <? total)%Z then [Sleep 1] else [])).
Proof.
  intros Hc. unfold loop_body, print_end. rewrite bind_emit.
  rewrite (bind_returns _ _ _ _ _ _ _ _ Hc).
  unfold bind, time_sleep, emit, ret.
  destruct (i <? total)%Z; rewrite ?app_nil_r; reflexivity.
Qed.

(** One turn: the progress mark, one attempt, exactly one counter moved,
    and a pause unless the index has reached the total. *)
Lemma loop_body_spec (total i : Z) (x : issue) (created failed : Z) (t : trace) :
  exists (ok : bool) (lines : list str),
    create_issue headers x w (t ++ [Stdout (progress i total)]) =
      (Returns ok,
       (t ++ [Stdout (progress i total)]) ++ HttpPost API_URL headers x :: map Stdout lines)
    /\ loop_body headers total i x (created, failed) w t =
      (Returns (if ok then (created + 1, failed)%Z else (created, failed + 1)%Z),
       t ++ Stdout (progress i total) :: HttpPost API_URL headers x :: map Stdout lines
         ++ (if (i <? total)%Z then [Sleep 1] else []))
    /\ (ok = true <->
        accepted (python w)
          (http_post w (t ++ [Stdout (progress i total)]) API_URL headers x)).
Proof.
  destruct (create_issue_returns w headers x (t ++ [Stdout (progress i total)]))
    as (ok & lines & Hc & Hok).
  exists ok, lines. split; [exact Hc |]. split; [| exact Hok].
  rewrite (loop_body_run total i x created failed t _ ok Hc).
  flatten_trace. reflexivity.
Qed.

Lemma loop_spec (total : Z) (rest : list issue) :
  forall (i created failed : Z) (t : trace),
  exists (verdicts : list bool) (new : trace),
    loop headers total i rest (created, failed) w t =
      (Returns ((created + created_count verdicts)%Z, (failed + failed_count verdicts)%Z),
       t ++ new)
    /\ Forall2 (verdict_of w headers) rest verdicts
    /\ posts new = map (HttpPost API_URL headers) rest
    /\ gets new = []
    /\ ((i + Z.of_nat (length rest) = total + 1)%Z -> pacing new = paced headers rest)
    /\ (attempts_accepted w (length t) (t ++ new) -> verdicts = repeat true (length rest)).
Proof.
  induction rest as [| x rest IH]; intros i created failed t.
  - exists [], []. cbn. unfold ret, created_count, failed_count. cbn.
    rewrite !Z.add_0_r, app_nil_r. repeat split; auto.
  - destruct (loop_body_spec total i x created failed t) as (ok & lines & Hc & Hb & Hok).
    cbn [loop]. rewrite (bind_returns _ _ _ _ _ _ _ _ Hb).
    set (turn := Stdout (progress i total) :: HttpPost API_URL headers x
                 :: map Stdout lines ++ (if (i <? total)%Z then [Sleep 1] else [])) in *.
    destruct (IH (i + 1)%Z (fst (if ok then (created + 1, failed) else (created, failed + 1)))%Z
                (snd (if ok then (created + 1, failed) else (created, failed + 1)))%Z
                (t ++ turn)) as (verdicts & new & Hl & Hv & Hp & Hg & Hs & Ha).
    exists (ok :: verdicts), (turn ++ new).
    split; [| split; [| split; [| split; [| split]]]].
    + rewrite <- surjective_pairing in Hl. rewrite Hl.
      rewrite created_count_cons, failed_count_cons, app_assoc.
      destruct ok; cbn [fst snd]; do 3 f_equal; lia.
    + constructor; [| exact Hv].
      eexists. rewrite Hc. reflexivity.
    + rewrite posts_app, Hp. unfold turn. cbn.
      change (filter is_post) with posts. rewrite posts_app, posts_stdout.
      destruct (i <? total)%Z; reflexivity.
    + rewrite gets_app, Hg. unfold turn. cbn.
      change (filter is_get) with gets. rewrite gets_app, gets_stdout.
      destruct (i <? total)%Z; reflexivity.
    + intros Hi. cbn [length] in Hi.
      rewrite pacing_app, Hs by lia. unfold turn. cbn.
      change (filter (fun e => is_post e || is_sleep e)) with pacing.
      rewrite pacing_app, pacing_stdout.
      destruct rest as [| y rest].
      * cbn [length] in Hi. replace (i <? total)%Z with false by (symmetry; apply Z.ltb_ge; lia).
        reflexivity.
      * cbn [length] in Hi. replace (i <? total)%Z with true by (symmetry; apply Z.ltb_lt; lia).
        reflexivity.
    + intros Hacc. cbn [length repeat]. f_equal.
      * apply Hok.
        apply (Hacc (t ++ [Stdout (progress i total)]) API_URL headers x
                 (map Stdout lines ++ (if (i <? total)%Z then [Sleep 1] else []) ++ new)).
        -- unfold turn. rewrite <- !app_assoc. cbn [app]. rewrite <- !app_assoc. reflexivity.
        -- rewrite length_app. lia.
      * apply Ha. rewrite <- app_assoc.
        apply (attempts_accepted_later w (length t)); [rewrite length_app; lia | exact Hacc].
Qed.

End Runner.

(** ** [main] *)

Section Main.

Import CreateIssues Observe.

Variables (w : world) (headers : headers_t).

Lemma summary_spec (created failed total : Z) (t : trace) :
  summary created failed total w t =
    (Returns tt, t ++ summary_events created failed total).
Proof.
  unfold summary, summary_events. rewrite !bind_print. unfold print, emit.
  flatten_trace. reflexivity.
Qed.

(** The whole run of [main]: banner, one turn per record, summary, and an
    exit of 1 exactly when some verdict is [False]. *)
Lemma main_spec (issues : list issue) (t : trace) :
  exists (verdicts : list bool) (body : trace),
    main headers issues w t =
      ((if (failed_count verdicts >? 0)%Z then Exits 1 else Returns tt),
       t ++ banner_events (Z.of_nat (length issues)) ++ body
         ++ summary_events (created_count verdicts) (failed_count verdicts)
              (Z.of_nat (length issues)))
    /\ Forall2 (verdict_of w headers) issues verdicts
    /\ posts body = map (HttpPost API_URL headers) issues
    /\ gets body = []
    /\ pacing body = paced headers issues
    /\ (attempts_accepted w (length t) (snd (main headers issues w t)) ->
        verdicts = repeat true (length issues)).
Proof.
  destruct (loop_spec w headers (Z.of_nat (length issues)) issues 1 0 0
              (t ++ banner_events (Z.of_nat (length issues))))
    as (verdicts & body & Hl & Hv & Hp & Hg & Hs & Ha).
  exists verdicts, body.
  assert (Hm : main headers issues w t =
      ((if (failed_count verdicts >? 0)%Z then Exits 1 else Returns tt),
       t ++ banner_events (Z.of_nat (length issues)) ++ body
         ++ summary_events (created_count verdicts) (failed_count verdicts)
              (Z.of_nat (length issues)))); [| split; [exact Hm |]].
  2:{ repeat split; auto; [apply Hs; lia |].
      rewrite Hm. cbn [snd]. intros Hacc. apply Ha.
      rewrite !app_assoc in Hacc. apply attempts_accepted_prefix in Hacc.
      apply (attempts_accepted_later w (length t)); [rewrite length_app; lia | exact Hacc]. }
  unfold main. rewrite !bind_print.
  rewrite <- (app_assoc t). cbn [app].
  unfold banner_events in Hl.
  rewrite (bind_returns _ _ _ _ _ _ _ _ Hl). cbn [fst snd].
  rewrite !Z.add_0_l.
  rewrite (bind_returns _ _ _ _ _ _ _ _
             (summary_spec (created_count verdicts) (failed_count verdicts) _ _)).
  unfold sys_exit, ret, banner_events. rewrite <- !app_assoc.
  destruct (failed_count verdicts >? 0)%Z; reflexivity.
Qed.

End Main.

(** ** The schedule [paced] *)

Section Schedule.

Import CreateIssues Observe.

Variable headers : headers_t.

Lemma paced_cons (x y : issue) (l : list issue) :
  paced headers (x :: y :: l) =
    HttpPost API_URL headers x :: Sleep 1 :: paced headers (y :: l).
Proof. reflexivity. Qed.

Lemma paced_head (y : issue) (l : list issue) :
  exists rest, paced headers (y :: l) = HttpPost API_URL headers y :: rest.
Proof. destruct l; eexists; reflexivity. Qed.

Lemma paced_app (a b : list issue) :
  a <> [] -> b <> [] ->
  paced headers (a ++ b) = paced headers a ++ Sleep 1 :: paced headers b.
Proof.
  intros Ha Hb. induction a as [| x a IH]; [contradiction |].
  destruct a as [| y a].
  - destruct b as [| z b]; [contradiction | reflexivity].
  - change ((x :: y :: a) ++ b) with (x :: y :: (a ++ b)).
    rewrite !paced_cons. cbn [app]. do 2 f_equal.
    apply IH. discriminate.
Qed.

Lemma paced_posts (l : list issue) :
  posts (paced headers l) = map (HttpPost API_URL headers) l.
Proof.
  induction l as [| x l IH]; [reflexivity |].
  destruct l as [| y l]; [reflexivity |].
  change (posts (paced headers (x :: y :: l)))
    with (HttpPost API_URL headers x :: posts (paced headers (y :: l))).
  now rewrite IH.
Qed.

Lemma paced_sleeps (l : list issue) :
  sleeps (paced headers l) = repeat (Sleep 1) (pred (length l)).
Proof.
  induction l as [| x l IH]; [reflexivity |].
  destruct l as [| y l]; [reflexivity |].
  change (sleeps (paced headers (x :: y :: l)))
    with (Sleep 1 :: sleeps (paced headers (y :: l))).
  now rewrite IH.
Qed.

(** The last record is followed by no pause. *)
Lemma paced_last (a : list issue) (x : issue) :
  exists pre, paced headers (a ++ [x]) = pre ++ [HttpPost API_URL headers x]
              /\ posts pre = map (HttpPost API_URL headers) a.
Proof.
  destruct a as [| y a].
  - exists []. split; reflexivity.
  - exists (paced headers (y :: a) ++ [Sleep 1]). split.
    + rewrite paced_app by discriminate. rewrite <- app_assoc. reflexivity.
    + rewrite posts_app, paced_posts. apply app_nil_r.
Qed.

(** Two neighbours of the catalog are separated by one pause of one
    second and by nothing else. *)
Lemma paced_neighbours (a : list issue) (x y : issue) (b : list issue) :
  exists pre post,
    paced headers (a ++ x :: y :: b) =
      pre ++ HttpPost API_URL headers x :: Sleep 1 :: HttpPost API_URL headers y :: post
    /\ posts pre = map (HttpPost API_URL headers) a.
Proof.
  destruct (paced_last a x) as (pre & Hpre & Hposts).
  destruct (paced_head y b) as (post & Hpost).
  exists pre, post. split; [| exact Hposts].
  change (a ++ x :: y :: b) with (a ++ [x] ++ y :: b).
  rewrite app_assoc, paced_app; [| now destruct a | discriminate].
  rewrite Hpre, Hpost, <- app_assoc. reflexivity.
Qed.

Lemma sleeps_pacing (t : trace) : sleeps (pacing t) = sleeps t.
Proof.
  induction t as [| e t IH]; [reflexivity |].
  unfold sleeps, posts, pacing in *. cbn [filter].
  destruct e; cbn [is_post is_sleep orb filter]; rewrite ?IH; reflexivity.
Qed.

Lemma posts_pacing (t : trace) : posts (pacing t) = posts t.
Proof.
  induction t as [| e t IH]; [reflexivity |].
  unfold sleeps, posts, pacing in *. cbn [filter].
  destruct e; cbn [is_post is_sleep orb filter]; rewrite ?IH; reflexivity.
Qed.

End Schedule.

(** ** The Submission Runner *)

Section RunnerClaims.

Import CreateIssues Observe.

Variables (w : world) (headers : headers_t).

(** C2.  On every catalog and against every server [main] reaches its
    summary.  Each record gets exactly one verdict, the two counters add
    up to the number of records, which is also the printed total, and the
    POST requests of the run are the records of the catalog, once each and
    in order.  In one turn of the loop exactly one counter moves, by one,
    and exactly one request is sent. *)
Theorem tally_accounts_for_every_record (issues : list issue) (t : trace) :
  exists (verdicts : list bool) (body : trace),
    let total := Z.of_nat (length issues) in
    let new := banner_events total ++ body
               ++ summary_events (created_count verdicts) (failed_count verdicts) total in
    snd (main headers issues w t) = t ++ new
    /\ (fst (main headers issues w t) = Returns tt
        \/ fst (main headers issues w t) = Exits 1)
    /\ Forall2 (verdict_of w headers) issues verdicts
    /\ length verdicts = length issues
    /\ (created_count verdicts + failed_count verdicts = total)%Z
    /\ posts new = map (HttpPost API_URL headers) issues
    /\ length (posts new) = length issues
    /\ (forall total' i x created failed t',
          exists (ok : bool) (turn : trace),
            loop_body headers total' i x (created, failed) w t' =
              (Returns (if ok then (created + 1, failed)%Z else (created, failed + 1)%Z),
               t' ++ turn)
            /\ posts turn = [HttpPost API_URL headers x]).
Proof.
  destruct (main_spec w headers issues t) as (verdicts & body & Hm & Hv & Hp & _).
  exists verdicts, body. cbv zeta.
  assert (Hn : length verdicts = length issues)
    by (symmetry; eapply Forall2_length; eassumption).
  assert (Hposts : posts (banner_events (Z.of_nat (length issues)) ++ body
            ++ summary_events (created_count verdicts) (failed_count verdicts)
                 (Z.of_nat (length issues))) = map (HttpPost API_URL headers) issues).
  { rewrite !posts_app, Hp. cbn. apply app_nil_r. }
  repeat split.
  - now rewrite Hm.
  - rewrite Hm. cbn [fst]. destruct (failed_count verdicts >? 0)%Z; auto.
  - exact Hv.
  - exact Hn.
  - now rewrite counts_add, Hn.
  - exact Hposts.
  - now rewrite Hposts, length_map.
  - intros total' i x created failed t'.
    destruct (loop_body_spec w headers total' i x created failed t')
      as (ok & lines & _ & Hb & _).
    exists ok. eexists. split; [exact Hb |].
    cbn. change (filter is_post) with posts.
    rewrite posts_app, posts_stdout. now destruct (i <? total')%Z.
Qed.

(** C3.  When every submission attempt of the run is accepted, the tally
    is N created and none failed and [main] returns, so the interpreter
    exits with status 0.  In every run the exit status is 0 when the count
    of failures is zero and 1 when it is positive; the empty catalog gives
    0.  The status of [main] is the status of the whole first script. *)
Theorem exit_status_follows_failures (issues : list issue) (t : trace) :
  let total := Z.of_nat (length issues) in
  (attempts_accepted w (length t) (snd (main headers issues w t)) ->
   exists body,
     main headers issues w t =
       (Returns tt, t ++ banner_events total ++ body ++ summary_events total 0 total)
     /\ posts body = map (HttpPost API_URL headers) issues
     /\ exit_status (fst (main headers issues w t)) = 0%Z)
  /\ (exists (verdicts : list bool) (body : trace),
        snd (main headers issues w t) =
          t ++ banner_events total ++ body
            ++ summary_events (created_count verdicts) (failed_count verdicts) total
        /\ Forall2 (verdict_of w headers) issues verdicts
        /\ (failed_count verdicts = 0%Z -> exit_status (fst (main headers issues w t)) = 0%Z)
        /\ (failed_count verdicts > 0 -> exit_status (fst (main headers issues w t)) = 1)%Z)
  /\ exit_status (fst (main headers [] w t)) = 0%Z
  /\ (requests_installed w = true ->
      truthy (environ w (lit "GITHUB_TOKEN")) = true ->
      headers = make_headers (fstring_field (environ w (lit "GITHUB_TOKEN"))) ->
      exit_status (fst (run (script issues) w)) =
        exit_status (fst (main headers issues w []))).
Proof.
  cbv zeta.
  destruct (main_spec w headers issues t) as (verdicts & body & Hm & Hv & Hp & _ & _ & Ha).
  split; [| split; [| split]].
  - intros Hacc. specialize (Ha Hacc). subst verdicts.
    destruct (counts_all_true (length issues)) as [Hc Hf].
    rewrite Hc, Hf in Hm. exists body. rewrite Hm. auto.
  - exists verdicts, body. rewrite Hm. cbn [fst snd]. repeat split; auto.
    + intros ->. reflexivity.
    + intros Hpos. apply Z.gt_lt, Z.gtb_lt in Hpos. now rewrite Hpos.
  - destruct (main_spec w headers [] t) as (v0 & b0 & Hm0 & Hv0 & _).
    inversion Hv0; subst. rewrite Hm0. reflexivity.
  - intros Hreq Henv ->.
    unfold run, script, import_requests, module_body, bind at 1 2 3.
    rewrite Hreq. unfold os_environ_get, bind at 1. rewrite Henv. cbn [negb].
    unfold ret at 1, bind at 1. cbn [str_eqb].
    change (str_eqb (lit "__main__") (lit "__main__")) with true. cbv iota.
    unfold bind.
    destruct (main (make_headers (fstring_field (environ w (lit "GITHUB_TOKEN")))) issues w [])
      as [[[] | e | c] t']; reflexivity.
Qed.

(** C4.  An exception raised by the request, by [response.json()] or by
    reading the two fields is caught inside [create_issue], which prints
    the two error lines and returns [False]; [create_issue] never raises.
    In the loop such a record moves the failure counter only, and the loop
    goes on with the next record.  Whatever the server does, [main] sends
    one request per record and raises nothing. *)
Theorem transport_exception_is_contained :
  (forall x t e,
     attempt_exception (python w) (http_post w t API_URL headers x) = Some e ->
     create_issue headers x w t =
       (Returns false,
        t ++ [ HttpPost API_URL headers x;
               Stdout ((ballot_x :: lit " Error creating issue: " ++ title x) ++ [10%N]);
               Stdout ((lit "  Error: " ++ exn_str e) ++ [10%N]) ]))
  /\ (forall x t, exists ok t', create_issue headers x w t = (Returns ok, t'))
  /\ (forall total i x rest created failed t e,
        attempt_exception (python w)
          (http_post w (t ++ [Stdout (progress i total)]) API_URL headers x) = Some e ->
        loop headers total i (x :: rest) (created, failed) w t =
          loop headers total (i + 1) rest (created, (failed + 1)%Z) w
            (t ++ [ Stdout (progress i total);
                    HttpPost API_URL headers x;
                    Stdout ((ballot_x :: lit " Error creating issue: " ++ title x) ++ [10%N]);
                    Stdout ((lit "  Error: " ++ exn_str e) ++ [10%N]) ]
               ++ (if (i <? total)%Z then [Sleep 1] else [])))
  /\ (forall issues t,
        exists new,
          snd (main headers issues w t) = t ++ new
          /\ posts new = map (HttpPost API_URL headers) issues
          /\ forall e, fst (main headers issues w t) <> Raises e).
Proof.
  split; [| split; [| split]].
  - intros x t e He. now apply create_issue_raised.
  - intros x t. destruct (create_issue_returns w headers x t) as (ok & lines & Hc & _).
    eauto.
  - intros total i x rest created failed t e He.
    apply create_issue_raised in He.
    cbn [loop].
    rewrite (bind_returns _ _ _ _ _ _ _ _
               (loop_body_run w headers total i x created failed t _ false He)).
    flatten_trace. reflexivity.
  - intros issues t.
    destruct (main_spec w headers issues t) as (verdicts & body & Hm & _ & Hp & _).
    eexists. rewrite Hm. cbn [fst snd]. split; [reflexivity |]. split.
    + rewrite !posts_app, Hp. cbn. apply app_nil_r.
    + intros e. destruct (failed_count verdicts >? 0)%Z; discriminate.
Qed.

(** C5.  In the run of [main] the requests and the pauses follow the
    schedule [paced]: a pause of one second, and nothing else of the two
    kinds, stands between the requests of two neighbours of the catalog;
    the request of the last record is the last of the schedule; there are
    N - 1 pauses, hence none for an empty or one-record catalog. *)
Theorem pause_between_submissions (issues : list issue) (t : trace) :
  exists new,
    snd (main headers issues w t) = t ++ new
    /\ pacing new = paced headers issues
    /\ sleeps new = repeat (Sleep 1) (pred (length issues))
    /\ (forall a x y b,
          issues = a ++ x :: y :: b ->
          exists pre post,
            pacing new =
              pre ++ HttpPost API_URL headers x :: Sleep 1
                  :: HttpPost API_URL headers y :: post
            /\ posts pre = map (HttpPost API_URL headers) a)
    /\ (forall a x,
          issues = a ++ [x] ->
          exists pre, pacing new = pre ++ [HttpPost API_URL headers x])
    /\ (length issues <= 1 -> sleeps new = []).
Proof.
  destruct (main_spec w headers issues t) as (verdicts & body & Hm & _ & _ & _ & Hs & _).
  eexists. rewrite Hm. cbn [snd]. split; [reflexivity |].
  assert (Hpace : pacing (banner_events (Z.of_nat (length issues)) ++ body
            ++ summary_events (created_count verdicts) (failed_count verdicts)
                 (Z.of_nat (length issues))) = paced headers issues).
  { rewrite !pacing_app, Hs. cbn. apply app_nil_r. }
  assert (Hsl : sleeps (banner_events (Z.of_nat (length issues)) ++ body
            ++ summary_events (created_count verdicts) (failed_count verdicts)
                 (Z.of_nat (length issues))) = repeat (Sleep 1) (pred (length issues))).
  { rewrite <- sleeps_pacing, Hpace. apply paced_sleeps. }
  repeat split.
  - exact Hpace.
  - exact Hsl.
  - intros a x y b ->. rewrite Hpace. apply paced_neighbours.
  - intros a x ->. rewrite Hpace. destruct (paced_last headers a x) as (pre & Hpre & _).
    eauto.
  - intros Hle. rewrite Hsl. destruct issues as [| x [| y l]]; cbn in *; [reflexivity .. | lia].
Qed.

(** C6.  When the attempt raises nothing, the verdict of [create_issue]
    is [True] exactly when the status is 201.  On 201 it prints one line
    that contains the number and the title of the answer; on any other
    status it prints three lines, which contain the title of the record,
    the status code and the text of the answer. *)
Theorem created_iff_status_201 (x : issue) (t : trace) (r : response) :
  http_post w t API_URL headers x = inr r ->
  attempt_exception (python w) (inr r) = None ->
  exists lines,
    create_issue headers x w t =
      (Returns (status_code r =? 201)%Z, t ++ HttpPost API_URL headers x :: map Stdout lines)
    /\ (fst (create_issue headers x w t) = Returns true <-> status_code r = 201%Z)
    /\ (status_code r = 201%Z ->
        exists v number title_value,
          json r = inr v
          /\ getitem (python w) v (lit "number") = inr number
          /\ getitem (python w) v (lit "title") = inr title_value
          /\ lines = [ (check_mark :: lit " Created issue #" ++ py_str (python w) number
                        ++ lit ": " ++ py_str (python w) title_value) ++ [10%N] ]
          /\ includes (py_str (python w) number) (concat lines)
          /\ includes (py_str (python w) title_value) (concat lines))
    /\ (status_code r <> 201%Z ->
        lines = [ (ballot_x :: lit " Failed to create issue: " ++ title x) ++ [10%N];
                  (lit "  Status: " ++ str_of_int (status_code r)) ++ [10%N];
                  (lit "  Response: " ++ text r) ++ [10%N] ]
        /\ includes (str_of_int (status_code r)) (concat lines)
        /\ includes (text r) (concat lines)).
Proof.
  intros Hr Hx.
  destruct (Z.eq_dec (status_code r) 201) as [Hs | Hs].
  - pose proof Hx as Hx'. unfold attempt_exception in Hx'.
    rewrite Hs in Hx'. cbn [Z.eqb Pos.eqb] in Hx'.
    destruct (json r) as [? | v] eqn:Hj; [discriminate |].
    destruct (getitem (python w) v (lit "number")) as [? | n] eqn:Hn; [discriminate |].
    destruct (getitem (python w) v (lit "title")) as [? | ti] eqn:Ht; [discriminate |].
    eexists [_]. rewrite (create_issue_created w headers x t r v n ti Hr Hs Hj Hn Ht).
    rewrite Hs. cbn [fst]. split; [reflexivity |]. split; [tauto |].
    split; [| intros; contradiction].
    intros _. exists v, n, ti. repeat split; auto.
    + exists (check_mark :: lit " Created issue #"), (lit ": " ++ py_str (python w) ti ++ [10%N]).
      cbn [concat]. rewrite app_nil_r. flatten_trace. reflexivity.
    + exists (check_mark :: lit " Created issue #" ++ py_str (python w) n ++ lit ": "), [10%N].
      cbn [concat]. rewrite app_nil_r. flatten_trace. reflexivity.
  - eexists [_; _; _]. rewrite (create_issue_refused w headers x t r Hr Hs).
    apply Z.eqb_neq in Hs. rewrite Hs. apply Z.eqb_neq in Hs. cbn [fst].
    split; [reflexivity |]. split; [split; [discriminate | contradiction] |].
    split; [intros; contradiction |].
    intros _. split; [reflexivity |]. split.
    + exists ((ballot_x :: lit " Failed to create issue: " ++ title x) ++ [10%N] ++ lit "  Status: "),
        ([10%N] ++ (lit "  Response: " ++ text r) ++ [10%N]).
      cbn [concat]. rewrite app_nil_r. flatten_trace. reflexivity.
    + exists ((ballot_x :: lit " Failed to create issue: " ++ title x) ++ [10%N]
              ++ (lit "  Status: " ++ str_of_int (status_code r)) ++ [10%N] ++ lit "  Response: "),
        [10%N].
      cbn [concat]. rewrite app_nil_r. flatten_trace. reflexivity.
Qed.

End RunnerClaims.

(** ** The token resolver *)

Section Resolver.

Import CreateIssues CreateIssuesDirect Observe.

Variables (w : world) (t : trace).

Lemma token_from_environment :
  truthy (environ w (lit "GITHUB_TOKEN")) = true ->
  get_github_token w t = (Returns (environ w (lit "GITHUB_TOKEN")), t).
Proof.
  intros H. unfold get_github_token, bind, os_environ_get. now rewrite H.
Qed.

Lemma token_from_helper (p : completed_process) :
  truthy (environ w (lit "GITHUB_TOKEN")) = false ->
  subprocess w helper_argv (Some 5%Z) = inr p ->
  returncode p = 0%Z ->
  get_github_token w t =
    (Returns (Some (strip (stdout p))), t ++ [Subprocess helper_argv (Some 5%Z)]).
Proof.
  intros He Hp Hrc.
  unfold get_github_token, bind, os_environ_get, try_except, subprocess_run, ret.
  now rewrite He, Hp, Hrc.
Qed.

Lemma token_helper_exit_code (p : completed_process) :
  truthy (environ w (lit "GITHUB_TOKEN")) = false ->
  subprocess w helper_argv (Some 5%Z) = inr p ->
  returncode p <> 0%Z ->
  get_github_token w t = (Returns None, t ++ [Subprocess helper_argv (Some 5%Z)]).
Proof.
  intros He Hp Hrc. apply Z.eqb_neq in Hrc.
  unfold get_github_token, bind, os_environ_get, try_except, subprocess_run, ret.
  now rewrite He, Hp, Hrc.
Qed.

Lemma token_helper_swallowed (e : exn) :
  truthy (environ w (lit "GITHUB_TOKEN")) = false ->
  subprocess w helper_argv (Some 5%Z) = inl e ->
  helper_failure e = true ->
  get_github_token w t = (Returns None, t ++ [Subprocess helper_argv (Some 5%Z)]).
Proof.
  intros He Hp Hf.
  unfold get_github_token, bind, os_environ_get, try_except, subprocess_run, ret.
  now rewrite He, Hp, Hf.
Qed.

(** Any other exception of [subprocess.run] leaves the function. *)
Lemma token_helper_escapes (e : exn) :
  truthy (environ w (lit "GITHUB_TOKEN")) = false ->
  subprocess w helper_argv (Some 5%Z) = inl e ->
  helper_failure e = false ->
  get_github_token w t = (Raises e, t ++ [Subprocess helper_argv (Some 5%Z)]).
Proof.
  intros He Hp Hf.
  unfold get_github_token, bind, os_environ_get, try_except, subprocess_run, ret.
  now rewrite He, Hp, Hf.
Qed.

Lemma token_unavailable :
  truthy (environ w (lit "GITHUB_TOKEN")) = false ->
  helper_unavailable w = true ->
  get_github_token w t = (Returns None, t ++ [Subprocess helper_argv (Some 5%Z)]).
Proof.
  intros He Hu. unfold helper_unavailable in Hu.
  destruct (subprocess w helper_argv (Some 5%Z)) as [e | p] eqn:Hp.
  - now apply (token_helper_swallowed e).
  - apply (token_helper_exit_code p); auto.
    apply negb_true_iff, Z.eqb_neq in Hu. exact Hu.
Qed.

End Resolver.

(** C9.  [get_github_token] returns the value of GITHUB_TOKEN when it is
    not empty, and then starts no subprocess.  Otherwise it runs
    [gh auth token] with a timeout of 5 seconds; when the helper exits with
    code 0 the result is its standard output without the white space at
    either end.  When the helper is not found or times out the function
    returns [None]: it does not raise. *)
Theorem token_resolution_order (w : world) (t : trace) :
  let variable := environ w (lit "GITHUB_TOKEN") in
  let call := Subprocess [lit "gh"; lit "auth"; lit "token"] (Some 5%Z) in
  (truthy variable = true ->
   CreateIssuesDirect.get_github_token w t = (Returns variable, t))
  /\ (truthy variable = false ->
      forall p,
        subprocess w CreateIssuesDirect.helper_argv (Some 5%Z) = inr p ->
        returncode p = 0%Z ->
        CreateIssuesDirect.get_github_token w t
          = (Returns (Some (strip (stdout p))), t ++ [call])
        /\ exists l r,
             stdout p = l ++ strip (stdout p) ++ r
             /\ forallb isspace l = true
             /\ forallb isspace r = true
             /\ match strip (stdout p) with [] => True | c :: _ => isspace c = false end
             /\ match rev (strip (stdout p)) with [] => True | c :: _ => isspace c = false end)
  /\ (truthy variable = false ->
      forall e,
        subprocess w CreateIssuesDirect.helper_argv (Some 5%Z) = inl e ->
        exn_cls e = FileNotFoundError \/ exn_cls e = TimeoutExpired ->
        CreateIssuesDirect.get_github_token w t = (Returns None, t ++ [call])).
Proof.
  cbv zeta. split; [| split].
  - apply token_from_environment.
  - intros He p Hp Hrc. split.
    + now apply token_from_helper.
    + apply strip_spec.
  - intros He e Hp Hcls. apply (token_helper_swallowed w t e He Hp).
    unfold CreateIssuesDirect.helper_failure. now destruct Hcls as [-> | ->].
Qed.

(** ** The two scripts *)

Section Scripts.

Import CreateIssues CreateIssuesDirect Observe.

Variables (w : world) (issues : list issue).

(** The import block of the second script sends no HTTP request. *)
Lemma import_block_quiet (o : outcome unit) (t0 : trace) :
  import_requests_or_install w [] = (o, t0) -> gets t0 = [] /\ posts t0 = [].
Proof.
  unfold import_requests_or_install, try_except, import_requests,
    import_requests_after_install, bind, print, emit, get_sys_executable, subprocess_run.
  destruct (requests_installed w); cbn.
  - intros [= <- <-]. auto.
  - destruct (subprocess w _ None); [| destruct (requests_installable w)];
      intros [= <- <-]; auto.
Qed.

(** The first script without a token. *)
Lemma first_script_without_token :
  requests_installed w = true ->
  truthy (environ w (lit "GITHUB_TOKEN")) = false ->
  run (CreateIssues.script issues) w = (Exits 1, token_missing_events).
Proof.
  intros Hreq He.
  unfold run, CreateIssues.script, import_requests, module_body, bind, os_environ_get.
  rewrite Hreq, He. reflexivity.
Qed.

(** The first script with a token is [main]. *)
Lemma first_script_with_token :
  requests_installed w = true ->
  truthy (environ w (lit "GITHUB_TOKEN")) = true ->
  run (CreateIssues.script issues) w =
    let r := main (make_headers (fstring_field (environ w (lit "GITHUB_TOKEN")))) issues w [] in
    (match fst r with Returns _ => Returns tt | Raises e => Raises e | Exits c => Exits c end,
     snd r).
Proof.
  intros Hreq He.
  unfold run, CreateIssues.script, import_requests, module_body, bind at 1 2 3.
  rewrite Hreq. unfold os_environ_get, bind at 1. rewrite He. cbn [negb].
  unfold ret at 1, bind at 1.
  change (str_eqb (lit "__main__") (lit "__main__")) with true. cbv iota.
  unfold bind. cbv zeta.
  destruct (main (make_headers (fstring_field (environ w (lit "GITHUB_TOKEN")))) issues w [])
    as [[[] | e | c] t']; reflexivity.
Qed.

(** The text executed by the second script, when the variable is missing:
    the check of the first script stops the process. *)
Lemma module_body_without_token (t : trace) :
  truthy (environ w (lit "GITHUB_TOKEN")) = false ->
  module_body issues (lit "__main__") w t = (Exits 1, t ++ token_missing_events).
Proof.
  intros He. unfold module_body, bind, os_environ_get. rewrite He. cbn [negb].
  unfold print, emit, sys_exit, token_missing_events. flatten_trace. reflexivity.
Qed.

(** The second script up to the end of its authentication check. *)
Lemma second_script_prefix (t0 t1 : trace) (token : str) (r : response) :
  import_requests_or_install w [] = (Returns tt, t0) ->
  get_github_token w t0 = (Returns (Some token), t1) ->
  token <> [] ->
  http_get w (t1 ++ [Stdout (lit "Testing GitHub authentication..." ++ [10%N])])
    REPO_URL (make_headers token) = inr r ->
  let checked := t1 ++ [ Stdout (lit "Testing GitHub authentication..." ++ [10%N]);
                         HttpGet REPO_URL (make_headers token) ] in
  run (CreateIssuesDirect.script issues) w =
    if negb (status_code r =? 200)%Z then
      (Exits 1,
       checked ++ [ Stdout ((ballot_x :: lit " Authentication failed: "
                             ++ str_of_int (status_code r)) ++ [10%N]);
                    Stdout ((lit "Response: " ++ text r) ++ [10%N]) ])
    else
      (headers' <- module_body issues (lit "__main__") ;; main headers' issues) w
        (checked ++ [ Stdout ((check_mark :: lit " Authentication successful!") ++ [10%N]);
                      Stdout [10%N] ]).
Proof.
  intros Hi Ht Hne Hg. cbv zeta.
  unfold run, CreateIssuesDirect.script.
  rewrite (bind_returns _ _ _ _ _ _ _ _ Hi).
  rewrite (bind_returns _ _ _ _ _ _ _ _ Ht).
  destruct token as [| c token]; [contradiction |]. cbn [truthy negb fstring_field].
  unfold ret at 1. unfold bind at 1. rewrite bind_print.
  unfold requests_get, bind at 1. rewrite Hg.
  destruct (status_code r =? 200)%Z; cbn [negb].
  - unfold ret at 1, bind at 1. rewrite !bind_print. flatten_trace. reflexivity.
  - unfold bind, print, emit, sys_exit. flatten_trace. reflexivity.
Qed.

Lemma token_required_spec (t : trace) :
  token_required w t = (Returns tt, t ++ token_required_events).
Proof.
  unfold token_required, token_required_events. rewrite !bind_print.
  unfold print, emit. flatten_trace. reflexivity.
Qed.

(** The second script when no token is found. *)
Lemma second_script_without_token (t0 t1 : trace) (token : option str) :
  import_requests_or_install w [] = (Returns tt, t0) ->
  get_github_token w t0 = (Returns token, t1) ->
  truthy token = false ->
  run (CreateIssuesDirect.script issues) w = (Exits 1, t1 ++ token_required_events).
Proof.
  intros Hi Ht Hf.
  unfold run, CreateIssuesDirect.script.
  rewrite (bind_returns _ _ _ _ _ _ _ _ Hi).
  rewrite (bind_returns _ _ _ _ _ _ _ _ Ht).
  rewrite Hf. cbn [negb].
  apply bind_exits.
  rewrite (bind_returns _ _ _ _ _ _ _ _ (token_required_spec t1)). reflexivity.
Qed.

(** A rejected check ends the run: no retry, no submission. *)
Lemma rejected_check_exits (t0 t1 : trace) (token : str) (r : response) :
  import_requests_or_install w [] = (Returns tt, t0) ->
  get_github_token w t0 = (Returns (Some token), t1) ->
  token <> [] ->
  http_get w (t1 ++ [Stdout (lit "Testing GitHub authentication..." ++ [10%N])])
    REPO_URL (make_headers token) = inr r ->
  status_code r <> 200%Z ->
  run (CreateIssuesDirect.script issues) w =
    (Exits 1,
     t1 ++ [ Stdout (lit "Testing GitHub authentication..." ++ [10%N]);
             HttpGet REPO_URL (make_headers token);
             Stdout ((ballot_x :: lit " Authentication failed: "
                      ++ str_of_int (status_code r)) ++ [10%N]);
             Stdout ((lit "Response: " ++ text r) ++ [10%N]) ]).
Proof.
  intros Hi Ht Hne Hg Hs.
  rewrite (second_script_prefix t0 t1 token r Hi Ht Hne Hg).
  apply Z.eqb_neq in Hs. rewrite Hs. cbn [negb]. flatten_trace. reflexivity.
Qed.

(** A token that comes from the helper passes the check, and then the
    executed text of the first script looks for the variable again, does
    not find it, and exits: nothing is submitted. *)
Lemma fallback_token_is_discarded (t0 t1 : trace) (token : str) (r : response) :
  import_requests_or_install w [] = (Returns tt, t0) ->
  truthy (environ w (lit "GITHUB_TOKEN")) = false ->
  get_github_token w t0 = (Returns (Some token), t1) ->
  token <> [] ->
  http_get w (t1 ++ [Stdout (lit "Testing GitHub authentication..." ++ [10%N])])
    REPO_URL (make_headers token) = inr r ->
  status_code r = 200%Z ->
  run (CreateIssuesDirect.script issues) w =
    (Exits 1,
     t1 ++ [ Stdout (lit "Testing GitHub authentication..." ++ [10%N]);
             HttpGet REPO_URL (make_headers token);
             Stdout ((check_mark :: lit " Authentication successful!") ++ [10%N]);
             Stdout [10%N] ]
        ++ token_missing_events).
Proof.
  intros Hi He Ht Hne Hg Hs.
  rewrite (second_script_prefix t0 t1 token r Hi Ht Hne Hg).
  rewrite Hs. cbn [Z.eqb Pos.eqb negb].
  rewrite (bind_exits _ _ _ _ _ _ _ _ (module_body_without_token _ He)).
  flatten_trace. reflexivity.
Qed.

(** With the variable set and the check passed, the executed text runs
    [main], so the catalog is submitted. *)
Lemma env_token_reaches_submissions (t0 : trace) (r : response) :
  import_requests_or_install w [] = (Returns tt, t0) ->
  truthy (environ w (lit "GITHUB_TOKEN")) = true ->
  let headers := make_headers (fstring_field (environ w (lit "GITHUB_TOKEN"))) in
  http_get w (t0 ++ [Stdout (lit "Testing GitHub authentication..." ++ [10%N])])
    REPO_URL headers = inr r ->
  status_code r = 200%Z ->
  exists before after,
    snd (run (CreateIssuesDirect.script issues) w) = before ++ after
    /\ posts before = []
    /\ gets before = [HttpGet REPO_URL headers]
    /\ exists more, posts after = map (HttpPost API_URL headers) issues ++ more.
Proof.
  intros Hi He headers Hg Hs.
  pose proof (token_from_environment w t0 He) as Ht.
  destruct (environ w (lit "GITHUB_TOKEN")) as [[| c token] |] eqn:Henv; try discriminate.
  cbn [fstring_field] in headers.
  rewrite (second_script_prefix t0 t0 (c :: token) r Hi Ht ltac:(discriminate) Hg).
  rewrite Hs. cbn [Z.eqb Pos.eqb negb].
  set (start := (t0 ++ _) ++ _).
  destruct (import_block_quiet _ _ Hi) as [Hg0 Hp0].
  exists start. unfold bind at 1, module_body.
  unfold bind at 1 2, os_environ_get. rewrite Henv. cbn [truthy negb].
  unfold ret at 1. unfold bind at 1.
  change (str_eqb (lit "__main__") (lit "__main__")) with true. cbv iota.
  cbn [fstring_field]. fold headers.
  destruct (main_spec w headers issues start) as (verdicts & body & Hm & _ & Hp & _).
  rewrite Hm.
  assert (Hstart : posts start = [] /\ gets start = [HttpGet REPO_URL headers]).
  { unfold start. rewrite !posts_app, !gets_app, Hp0, Hg0. split; reflexivity. }
  destruct Hstart as [Hps Hgs].
  destruct (failed_count verdicts >? 0)%Z.
  - eexists. cbn [snd]. split; [reflexivity |]. repeat split; auto.
    exists []. rewrite !posts_app, Hp. cbn. now rewrite !app_nil_r.
  - unfold ret at 1.
    destruct (main_spec w headers issues
                (start ++ banner_events (Z.of_nat (length issues)) ++ body
                   ++ summary_events (created_count verdicts) (failed_count verdicts)
                        (Z.of_nat (length issues))))
      as (verdicts2 & body2 & Hm2 & _ & Hp2 & _).
    rewrite Hm2. cbn [snd]. rewrite <- app_assoc.
    eexists. split; [reflexivity |]. repeat split; auto.
    eexists. rewrite !posts_app, Hp. cbn [app]. 
    change (posts (banner_events ?n)) with (@nil event).
    change (posts (summary_events ?a ?b ?c)) with (@nil event).
    cbn [app]. rewrite app_nil_r. reflexivity.
Qed.

End Scripts.

(** ** Credential resolution in the two scripts *)

Section Credentials.

Import CreateIssues CreateIssuesDirect Observe.

Variables (w : world) (issues : list issue).

Lemma printed_token_required (t : trace) (needle : str) :
  includesb needle (printed token_required_events) = true ->
  includes needle (printed (t ++ Subprocess helper_argv (Some 5%Z) :: token_required_events)).
Proof.
  intros H. rewrite printed_app. apply includes_app_r.
  cbn [printed]. now apply includesb_sound.
Qed.

(** C7.  When GITHUB_TOKEN is unset or empty, the first script prints how
    to set it and exits with status 1.  When moreover the helper is
    absent, too slow or unsuccessful, the second script prints where to
    create a token, which scope it needs and how to pass it, and exits
    with status 1.  Neither run contains a GET or a POST request. *)
Theorem no_credential_exits_before_http :
  truthy (environ w (lit "GITHUB_TOKEN")) = false ->
  (requests_installed w = true ->
   let r := run (CreateIssues.script issues) w in
   r = (Exits 1, token_missing_events)
   /\ exit_status (fst r) = 1%Z
   /\ gets (snd r) = []
   /\ posts (snd r) = []
   /\ includes (lit "export GITHUB_TOKEN='your_token_here'") (printed (snd r)))
  /\ (forall t0,
        import_requests_or_install w [] = (Returns tt, t0) ->
        helper_unavailable w = true ->
        let r := run (CreateIssuesDirect.script issues) w in
        r = (Exits 1, t0 ++ Subprocess helper_argv (Some 5%Z) :: token_required_events)
        /\ exit_status (fst r) = 1%Z
        /\ gets (snd r) = []
        /\ posts (snd r) = []
        /\ includes (lit "https://github.com/settings/tokens/new") (printed (snd r))
        /\ includes (lit "'repo' scope") (printed (snd r))
        /\ includes (lit "export GITHUB_TOKEN='your_token_here'") (printed (snd r))).
Proof.
  intros He. split.
  - intros Hreq. cbv zeta. rewrite (first_script_without_token w issues Hreq He).
    cbn [fst snd exit_status]. repeat split.
    apply includesb_sound. vm_compute. reflexivity.
  - intros t0 Hi Hu. cbv zeta.
    pose proof (token_unavailable w t0 He Hu) as Ht.
    rewrite (second_script_without_token w issues t0 _ None Hi Ht eq_refl).
    destruct (import_block_quiet w _ _ Hi) as [Hg Hp].
    rewrite <- app_assoc. cbn [app fst snd exit_status].
    repeat split.
    + rewrite gets_app, Hg. reflexivity.
    + rewrite posts_app, Hp. reflexivity.
    + apply printed_token_required. vm_compute. reflexivity.
    + apply printed_token_required. vm_compute. reflexivity.
    + apply printed_token_required. vm_compute. reflexivity.
Qed.

(** C10.  When GITHUB_TOKEN is unset or empty and the helper exits with
    code 0 after printing white space only, [get_github_token] returns the
    empty string, which is false: the second script prints the same
    instructions and exits with status 1 without any HTTP request, and its
    whole run equals the run in which the helper gives nothing. *)
Theorem blank_helper_output_is_no_credential (t0 : trace) (p : completed_process) :
  import_requests_or_install w [] = (Returns tt, t0) ->
  truthy (environ w (lit "GITHUB_TOKEN")) = false ->
  subprocess w helper_argv (Some 5%Z) = inr p ->
  returncode p = 0%Z ->
  forallb isspace (stdout p) = true ->
  let r := run (CreateIssuesDirect.script issues) w in
  get_github_token w t0 = (Returns (Some []), t0 ++ [Subprocess helper_argv (Some 5%Z)])
  /\ r = (Exits 1, t0 ++ Subprocess helper_argv (Some 5%Z) :: token_required_events)
  /\ exit_status (fst r) = 1%Z
  /\ gets (snd r) = []
  /\ posts (snd r) = []
  /\ (forall w',
        import_requests_or_install w' [] = (Returns tt, t0) ->
        truthy (environ w' (lit "GITHUB_TOKEN")) = false ->
        helper_unavailable w' = true ->
        run (CreateIssuesDirect.script issues) w' = r).
Proof.
  intros Hi He Hp Hrc Hblank. cbv zeta.
  pose proof (token_from_helper w t0 p He Hp Hrc) as Ht.
  rewrite (strip_blank _ Hblank) in Ht.
  rewrite (second_script_without_token w issues t0 _ (Some []) Hi Ht eq_refl).
  destruct (import_block_quiet w _ _ Hi) as [Hg Hq].
  rewrite <- app_assoc. cbn [app fst snd exit_status].
  repeat split.
  - exact Ht.
  - rewrite gets_app, Hg. reflexivity.
  - rewrite posts_app, Hq. reflexivity.
  - intros w' Hi' He' Hu'.
    pose proof (token_unavailable w' t0 He' Hu') as Ht'.
    rewrite (second_script_without_token w' issues t0 _ None Hi' Ht' eq_refl).
    rewrite <- app_assoc. reflexivity.
Qed.

End Credentials.

(** ** The helper token in the second script *)

Section Fallback.

Import CreateIssues CreateIssuesDirect Observe Samples.

(** C1.  The run of the second script in [world_helper]: GITHUB_TOKEN is
    unset and [gh auth token] prints a token.  The token is resolved and
    sent with the authentication check, which succeeds; then the executed
    text of create_issues.py reads the variable, finds nothing, prints its
    error and exits with status 1.  The catalog is not submitted. *)
Theorem helper_token_run_stops_at_variable_check :
  truthy (environ world_helper (lit "GITHUB_TOKEN")) = false
  /\ get_github_token world_helper [] =
       (Returns (Some (lit "gho_helper")), [Subprocess helper_argv (Some 5%Z)])
  /\ run (CreateIssuesDirect.script catalog) world_helper =
       (Exits 1,
        [ Subprocess helper_argv (Some 5%Z);
          Stdout (lit "Testing GitHub authentication..." ++ [10%N]);
          HttpGet REPO_URL (make_headers (lit "gho_helper"));
          Stdout ((check_mark :: lit " Authentication successful!") ++ [10%N]);
          Stdout [10%N];
          Stdout (lit "Error: GITHUB_TOKEN environment variable not set" ++ [10%N]);
          Stdout (lit "Please set it with: export GITHUB_TOKEN='your_token_here'"
                  ++ [10%N]) ])
  /\ posts (snd (run (CreateIssuesDirect.script catalog) world_helper)) = []
  /\ catalog <> [].
Proof.
  repeat split; try (vm_compute; reflexivity). discriminate.
Qed.

(** C8.  In the same run the authentication check is answered with status
    200, and yet no submission follows: the exit status is 1 and the trace
    holds one GET request and no POST request. *)
Theorem accepted_check_without_submission :
  let r := run (CreateIssuesDirect.script catalog) world_helper in
  gets (snd r) = [HttpGet REPO_URL (make_headers (lit "gho_helper"))]
  /\ (exists answer,
        http_get world_helper
          [ Subprocess helper_argv (Some 5%Z);
            Stdout (lit "Testing GitHub authentication..." ++ [10%N]) ]
          REPO_URL (make_headers (lit "gho_helper")) = inr answer
        /\ status_code answer = 200%Z)
  /\ posts (snd r) = []
  /\ length catalog = 3
  /\ exit_status (fst r) = 1%Z.
Proof.
  cbv zeta. repeat split; try (vm_compute; reflexivity).
  eexists. split; reflexivity.
Qed.

End Fallback.

(** ** The theorems at concrete runs *)

Section Runs.

Import CreateIssues CreateIssuesDirect Observe Samples.

(** The scenario of the specification: of three records the second is
    answered with 422.  Two are created, one fails, the status is 1. *)
Example scenario_one_refusal :
  let r := run (CreateIssues.script catalog) world_422 in
  exit_status (fst r) = 1%Z
  /\ posts (snd r) = map (HttpPost API_URL (make_headers (lit "ghp_env"))) catalog
  /\ includesb (lit "  Status: 422") (printed (snd r)) = true
  /\ includesb (printed (summary_events 2 1 3)) (printed (snd r)) = true.
Proof. cbv zeta. repeat split; vm_compute; reflexivity. Qed.

(** The empty catalog: nothing is posted, the tally is zero, the status
    is 0. *)
Example scenario_empty_catalog :
  let r := run (CreateIssues.script []) world_env in
  exit_status (fst r) = 0%Z
  /\ posts (snd r) = []
  /\ includesb (printed (summary_events 0 0 0)) (printed (snd r)) = true.
Proof. cbv zeta. repeat split; vm_compute; reflexivity. Qed.

(** A run of the second script with the variable set: the executed text
    calls [main] under its [__main__] guard and the script calls it again,
    so an accepted record is posted twice. *)
Example second_script_runs_main_twice :
  let r := run (CreateIssuesDirect.script [issue_a]) world_env in
  exit_status (fst r) = 0%Z
  /\ posts (snd r) =
       [ HttpPost API_URL (make_headers (lit "ghp_env")) issue_a;
         HttpPost API_URL (make_headers (lit "ghp_env")) issue_a ].
Proof. cbv zeta. split; vm_compute; reflexivity. Qed.

Lemma world_env_accepts (start : nat) (final : trace) :
  attempts_accepted world_env start final.
Proof.
  intros pre url headers x post _ _.
  exists (created_response pre x). repeat split.
Qed.

Lemma exit_status_follows_failures_witness :
  attempts_accepted world_env 0
    (snd (main (make_headers (lit "ghp_env")) catalog world_env []))
  /\ exit_status (fst (main (make_headers (lit "ghp_env")) catalog world_env [])) = 0%Z
  /\ exit_status (fst (run (CreateIssues.script catalog) world_env)) = 0%Z.
Proof.
  pose proof (world_env_accepts 0
                (snd (main (make_headers (lit "ghp_env")) catalog world_env []))) as H.
  split; [exact H |].
  destruct (exit_status_follows_failures world_env (make_headers (lit "ghp_env")) catalog [])
    as (Ha & _ & _ & Hs).
  destruct (Ha H) as (body & _ & _ & He).
  split; [exact He |].
  rewrite Hs; [exact He | reflexivity ..].
Defined.

Lemma transport_exception_is_contained_witness :
  attempt_exception (python world_flaky)
    (http_post world_flaky [] API_URL (make_headers (lit "ghp_env")) issue_a)
    = Some connection_error
  /\ create_issue (make_headers (lit "ghp_env")) issue_a world_flaky [] =
       (Returns false,
        [ HttpPost API_URL (make_headers (lit "ghp_env")) issue_a;
          Stdout ((ballot_x :: lit " Error creating issue: " ++ title issue_a) ++ [10%N]);
          Stdout ((lit "  Error: " ++ exn_str connection_error) ++ [10%N]) ])
  /\ loop (make_headers (lit "ghp_env")) 3 1 (issue_a :: [issue_b; issue_c]) (0, 0)%Z
       world_flaky [] =
     loop (make_headers (lit "ghp_env")) 3 (1 + 1) [issue_b; issue_c] (0, 0 + 1)%Z
       world_flaky
       ([] ++ [ Stdout (progress 1 3);
                HttpPost API_URL (make_headers (lit "ghp_env")) issue_a;
                Stdout ((ballot_x :: lit " Error creating issue: " ++ title issue_a)
                        ++ [10%N]);
                Stdout ((lit "  Error: " ++ exn_str connection_error) ++ [10%N]) ]
           ++ (if (1 <? 3)%Z then [Sleep 1] else [])).
Proof.
  destruct (transport_exception_is_contained world_flaky (make_headers (lit "ghp_env")))
    as (Hcatch & _ & Hnext & _).
  split; [reflexivity |]. split.
  - apply (Hcatch issue_a [] connection_error). reflexivity.
  - apply (Hnext 3%Z 1%Z issue_a [issue_b; issue_c] 0%Z 0%Z [] connection_error).
    reflexivity.
Defined.

Lemma pause_between_submissions_witness :
  catalog = [issue_a] ++ issue_b :: issue_c :: []
  /\ exists pre post,
       pacing (snd (main (make_headers (lit "ghp_env")) catalog world_env [])) =
         pre ++ HttpPost API_URL (make_headers (lit "ghp_env")) issue_b :: Sleep 1
             :: HttpPost API_URL (make_headers (lit "ghp_env")) issue_c :: post.
Proof.
  split; [reflexivity |].
  destruct (pause_between_submissions world_env (make_headers (lit "ghp_env")) catalog [])
    as (new & Hnew & _ & _ & Hbetween & _).
  destruct (Hbetween [issue_a] issue_b issue_c [] eq_refl) as (pre & post & Hp & _).
  exists pre, post. rewrite Hnew. exact Hp.
Defined.

Lemma created_iff_status_201_witness :
  http_post world_422 [] API_URL (make_headers (lit "ghp_env")) issue_b
    = inr (plain_response 422 (lit "Validation Failed"))
  /\ attempt_exception (python world_422)
       (inr (plain_response 422 (lit "Validation Failed"))) = None
  /\ exists lines,
       create_issue (make_headers (lit "ghp_env")) issue_b world_422 [] =
         (Returns false,
          [] ++ HttpPost API_URL (make_headers (lit "ghp_env")) issue_b :: map Stdout lines)
       /\ includes (str_of_int 422) (concat lines)
       /\ includes (lit "Validation Failed") (concat lines).
Proof.
  split; [reflexivity |]. split; [reflexivity |].
  destruct (created_iff_status_201 world_422 (make_headers (lit "ghp_env")) issue_b []
              (plain_response 422 (lit "Validation Failed")) eq_refl eq_refl)
    as (lines & Hrun & _ & _ & Hrefused).
  destruct (Hrefused ltac:(discriminate)) as (_ & Hcode & Htext).
  exists lines. repeat split; assumption.
Defined.

Lemma token_resolution_order_witness :
  truthy (environ world_env (lit "GITHUB_TOKEN")) = true
  /\ get_github_token world_env [] = (Returns (Some (lit "ghp_env")), [])
  /\ truthy (environ world_helper (lit "GITHUB_TOKEN")) = false
  /\ get_github_token world_helper [] =
       (Returns (Some (strip (lit "gho_helper" ++ [10%N]))),
        [] ++ [Subprocess [lit "gh"; lit "auth"; lit "token"] (Some 5%Z)])
  /\ get_github_token world_no_helper [] =
       (Returns None, [] ++ [Subprocess [lit "gh"; lit "auth"; lit "token"] (Some 5%Z)])
  /\ get_github_token world_slow_helper [] =
       (Returns None, [] ++ [Subprocess [lit "gh"; lit "auth"; lit "token"] (Some 5%Z)]).
Proof.
  split; [reflexivity |]. split.
  - apply (proj1 (token_resolution_order world_env [])). reflexivity.
  - split; [reflexivity |]. split; [| split].
    + apply (proj1 (proj2 (token_resolution_order world_helper [])) eq_refl
               {| returncode := 0; stdout := lit "gho_helper" ++ [10%N] |});
        reflexivity.
    + apply (proj2 (proj2 (token_resolution_order world_no_helper [])) eq_refl gh_missing);
        [reflexivity | left; reflexivity].
    + apply (proj2 (proj2 (token_resolution_order world_slow_helper [])) eq_refl gh_timeout);
        [reflexivity | right; reflexivity].
Defined.

Lemma no_credential_exits_before_http_witness :
  truthy (environ world_no_helper (lit "GITHUB_TOKEN")) = false
  /\ requests_installed world_no_helper = true
  /\ import_requests_or_install world_no_helper [] = (Returns tt, [])
  /\ helper_unavailable world_no_helper = true
  /\ run (CreateIssues.script catalog) world_no_helper = (Exits 1, token_missing_events)
  /\ run (CreateIssuesDirect.script catalog) world_no_helper =
       (Exits 1, [] ++ Subprocess helper_argv (Some 5%Z) :: token_required_events)
  /\ helper_unavailable world_logged_out = true
  /\ run (CreateIssuesDirect.script catalog) world_logged_out =
       (Exits 1, [] ++ Subprocess helper_argv (Some 5%Z) :: token_required_events).
Proof.
  destruct (no_credential_exits_before_http world_no_helper catalog eq_refl) as [H1 H2].
  destruct (no_credential_exits_before_http world_logged_out catalog eq_refl) as [_ H3].
  do 4 (split; [reflexivity |]).
  split; [exact (proj1 (H1 eq_refl)) |].
  split; [exact (proj1 (H2 [] eq_refl eq_refl)) |].
  split; [reflexivity |].
  exact (proj1 (H3 [] eq_refl eq_refl)).
Defined.

Lemma blank_helper_output_is_no_credential_witness :
  import_requests_or_install world_blank_helper [] = (Returns tt, [])
  /\ truthy (environ world_blank_helper (lit "GITHUB_TOKEN")) = false
  /\ subprocess world_blank_helper helper_argv (Some 5%Z)
       = inr {| returncode := 0; stdout := [32%N; 10%N] |}
  /\ forallb isspace [32%N; 10%N] = true
  /\ run (CreateIssuesDirect.script catalog) world_blank_helper =
       (Exits 1, [] ++ Subprocess helper_argv (Some 5%Z) :: token_required_events)
  /\ run (CreateIssuesDirect.script catalog) world_no_helper =
       run (CreateIssuesDirect.script catalog) world_blank_helper.
Proof.
  destruct (blank_helper_output_is_no_credential world_blank_helper catalog []
              {| returncode := 0; stdout := [32%N; 10%N] |}
              eq_refl eq_refl eq_refl eq_refl eq_refl)
    as (_ & Hrun & _ & _ & _ & Hsame).
  do 4 (split; [reflexivity |]).
  split; [exact Hrun |].
  apply (Hsame world_no_helper); reflexivity.
Defined.

End Runs.

(** * Further properties of the scripts *)

(** ** Stages of the second script *)

Section Stages.

Import CreateIssues CreateIssuesDirect Observe Marks.

Variables (w : world) (issues : list issue).

(** The import block returns or raises, and what it adds to the trace is
    nothing, or the notice followed by the call of pip. *)
Lemma import_outcomes (o : outcome unit) (t0 : trace) :
  import_requests_or_install w [] = (o, t0) ->
  (t0 = [] \/ t0 = [Stdout (lit "Installing requests library..." ++ [10%N]); pip_call w])
  /\ (o = Returns tt \/ exists e, o = Raises e).
Proof.
  unfold import_requests_or_install, try_except, import_requests,
    import_requests_after_install, bind, print, emit, get_sys_executable,
    subprocess_run, pip_call.
  destruct (requests_installed w); cbn.
  - intros [= <- <-]. auto.
  - destruct (subprocess w _ None); [| destruct (requests_installable w)];
      intros [= <- <-]; split; eauto.
Qed.

(** The resolver starts at most the helper, and never exits. *)
Lemma token_trace (t : trace) (o : outcome (option str)) (t1 : trace) :
  get_github_token w t = (o, t1) ->
  (t1 = t \/ t1 = t ++ [Subprocess helper_argv (Some 5%Z)])
  /\ (forall c, o <> Exits c)
  /\ (forall tok, o = Returns (Some tok) -> tok <> [] ->
      truthy (environ w (lit "GITHUB_TOKEN")) = true ->
      environ w (lit "GITHUB_TOKEN") = Some tok).
Proof.
  unfold get_github_token, bind, os_environ_get, try_except, subprocess_run, ret.
  destruct (truthy (environ w (lit "GITHUB_TOKEN"))) eqn:He.
  - intros [= <- <-]. repeat split; auto; try discriminate.
    intros tok [= ->] _ _. reflexivity.
  - destruct (subprocess w helper_argv (Some 5%Z)) as [e | p].
    + destruct (helper_failure e); intros [= <- <-]; repeat split; auto; discriminate.
    + destruct (returncode p =? 0)%Z; intros [= <- <-]; repeat split; auto; discriminate.
Qed.

Lemma token_trace_quiet (t : trace) (o : outcome (option str)) (t1 : trace) :
  get_github_token w t = (o, t1) -> gets t1 = gets t /\ posts t1 = posts t.
Proof.
  intros H. destruct (token_trace t o t1 H) as [[-> | ->] _]; [auto |].
  rewrite gets_app, posts_app. cbn. now rewrite !app_nil_r.
Qed.

(** The executed text of the first script when the variable is set: it
    binds [headers] and runs [main] under the [__main__] guard. *)
Lemma module_body_with_token (t : trace) :
  truthy (environ w (lit "GITHUB_TOKEN")) = true ->
  let headers := make_headers (fstring_field (environ w (lit "GITHUB_TOKEN"))) in
  module_body issues (lit "__main__") w t =
    (match fst (main headers issues w t) with
     | Returns _ => Returns headers
     | Raises e => Raises e
     | Exits c => Exits c
     end,
     snd (main headers issues w t)).
Proof.
  intros He headers. unfold module_body, bind at 1 2, os_environ_get.
  rewrite He. cbn [negb]. unfold ret at 1. unfold bind at 1.
  change (str_eqb (lit "__main__") (lit "__main__")) with true. cbv iota.
  fold headers. unfold bind.
  destruct (main headers issues w t) as [[[] | e | c] t']; reflexivity.
Qed.

(** [exec] of the first script followed by the call of [main]: one pass
    over the catalog, and a second one when the first has no failure. *)
Lemma exec_then_main (t : trace) :
  truthy (environ w (lit "GITHUB_TOKEN")) = true ->
  let headers := make_headers (fstring_field (environ w (lit "GITHUB_TOKEN"))) in
  let total := Z.of_nat (length issues) in
  exists (verdicts : list bool) (body : trace),
    Forall2 (verdict_of w headers) issues verdicts
    /\ posts body = map (HttpPost API_URL headers) issues
    /\ gets body = []
    /\ pacing body = paced headers issues
    /\ (headers' <- module_body issues (lit "__main__") ;; main headers' issues) w t =
       if (failed_count verdicts >? 0)%Z
       then (Exits 1, t ++ pass_events total body verdicts)
       else main headers issues w (t ++ pass_events total body verdicts).
Proof.
  intros He headers total.
  destruct (main_spec w headers issues t) as (verdicts & body & Hm & Hv & Hp & Hg & Hs & _).
  exists verdicts, body. repeat split; auto.
  unfold bind at 1. rewrite (module_body_with_token t He). fold headers.
  rewrite Hm. cbn [fst snd]. unfold pass_events. fold total.
  destruct (failed_count verdicts >? 0)%Z; reflexivity.
Qed.

Lemma pass_events_posts (headers : headers_t) (body : trace) (verdicts : list bool) :
  posts body = map (HttpPost API_URL headers) issues ->
  posts (pass_events (Z.of_nat (length issues)) body verdicts)
    = map (HttpPost API_URL headers) issues.
Proof.
  intros Hp. unfold pass_events. rewrite !posts_app, Hp. cbn. apply app_nil_r.
Qed.

Lemma pass_events_gets (body : trace) (verdicts : list bool) (total : Z) :
  gets body = [] -> gets (pass_events total body verdicts) = [].
Proof.
  intros Hg. unfold pass_events. rewrite !gets_app, Hg. reflexivity.
Qed.

Lemma pass_events_pacing (headers : headers_t) (body : trace) (verdicts : list bool)
    (total : Z) :
  pacing body = paced headers issues ->
  pacing (pass_events total body verdicts) = paced headers issues.
Proof.
  intros Hs. unfold pass_events. rewrite !pacing_app, Hs. cbn. apply app_nil_r.
Qed.

(** The second script when the request of the check raises. *)
Lemma second_script_check_raises (t0 t1 : trace) (token : str) (e : exn) :
  import_requests_or_install w [] = (Returns tt, t0) ->
  get_github_token w t0 = (Returns (Some token), t1) ->
  token <> [] ->
  http_get w (t1 ++ [Stdout (lit "Testing GitHub authentication..." ++ [10%N])])
    REPO_URL (make_headers token) = inl e ->
  run (CreateIssuesDirect.script issues) w = (Raises e, t1 ++ check_events token).
Proof.
  intros Hi Ht Hne Hg.
  unfold run, CreateIssuesDirect.script.
  rewrite (bind_returns _ _ _ _ _ _ _ _ Hi).
  rewrite (bind_returns _ _ _ _ _ _ _ _ Ht).
  destruct token as [| c token]; [contradiction |]. cbn [truthy negb fstring_field].
  unfold ret at 1. unfold bind at 1. rewrite bind_print.
  unfold requests_get, bind at 1. rewrite Hg.
  unfold check_events. flatten_trace. reflexivity.
Qed.

End Stages.

Section Paths.

Import CreateIssues CreateIssuesDirect Observe Marks.

Variables (w : world) (issues : list issue).

(** Every run of the second script either ends with status 1 before any
    submission, or has passed a check answered with 200. *)
Lemma second_script_paths :
  let r := run (CreateIssuesDirect.script issues) w in
  (exit_status (fst r) = 1%Z /\ posts (snd r) = [] /\ length (gets (snd r)) <= 1)
  \/ (exists t1 token answer after,
        snd r = (t1 ++ check_events token) ++ after
        /\ posts t1 = []
        /\ gets t1 = []
        /\ http_get w (t1 ++ [Stdout (lit "Testing GitHub authentication..." ++ [10%N])])
             REPO_URL (make_headers token) = inr answer
        /\ status_code answer = 200%Z
        /\ gets after = []
        /\ (exit_status (fst r) = 0 \/ exit_status (fst r) = 1)%Z).
Proof.
  cbv zeta.
  destruct (import_requests_or_install w []) as [oi t0] eqn:Hi.
  destruct (import_block_quiet w _ _ Hi) as [Hg0 Hp0].
  destruct (import_outcomes w _ _ Hi) as [_ [-> | [e ->]]].
  2:{ left. unfold run, CreateIssuesDirect.script.
      rewrite (bind_raises _ _ _ _ _ _ _ _ Hi). cbn [fst snd exit_status].
      rewrite Hg0, Hp0. cbn. auto. }
  destruct (get_github_token w t0) as [ot t1] eqn:Ht.
  destruct (token_trace_quiet w _ _ _ Ht) as [Hg1 Hp1]. rewrite Hg0 in Hg1. rewrite Hp0 in Hp1.
  destruct (token_trace w _ _ _ Ht) as (_ & Hnoexit & _).
  destruct ot as [token | e | c]; [| | now destruct (Hnoexit c)].
  2:{ left. unfold run, CreateIssuesDirect.script.
      rewrite (bind_returns _ _ _ _ _ _ _ _ Hi), (bind_raises _ _ _ _ _ _ _ _ Ht).
      cbn [fst snd exit_status]. rewrite Hg1, Hp1. cbn. auto. }
  destruct (truthy token) eqn:Htok.
  2:{ left. rewrite (second_script_without_token w issues t0 t1 token Hi Ht Htok).
      cbn [fst snd exit_status]. rewrite posts_app, gets_app, Hg1, Hp1. cbn. auto. }
  destruct token as [[| c tok] |]; try discriminate.
  destruct (http_get w (t1 ++ [Stdout (lit "Testing GitHub authentication..." ++ [10%N])])
              REPO_URL (make_headers (c :: tok))) as [e | r] eqn:Hget.
  { left. rewrite (second_script_check_raises w issues t0 t1 (c :: tok) e Hi Ht
                     ltac:(discriminate) Hget).
    cbn [fst snd exit_status]. rewrite posts_app, gets_app, Hg1, Hp1. cbn. auto. }
  rewrite (second_script_prefix w issues t0 t1 (c :: tok) r Hi Ht ltac:(discriminate) Hget).
  destruct (status_code r =? 200)%Z eqn:Hs; cbn [negb].
  2:{ left. cbn [fst snd exit_status].
      rewrite !posts_app, !gets_app, Hg1, Hp1. cbn. auto. }
  apply Z.eqb_eq in Hs.
  destruct (truthy (environ w (lit "GITHUB_TOKEN"))) eqn:He.
  2:{ left. rewrite (bind_exits _ _ _ _ _ _ _ _ (module_body_without_token w issues _ He)).
      cbn [fst snd exit_status]. rewrite !posts_app, !gets_app, Hg1, Hp1. cbn. auto. }
  right. exists t1, (c :: tok), r.
  set (start := (t1 ++ _) ++ _).
  destruct (exec_then_main w issues start He) as (verdicts & body & _ & _ & Hgb & _ & Hrun).
  rewrite Hrun. clear Hrun.
  set (headers := make_headers (fstring_field (environ w (lit "GITHUB_TOKEN")))).
  set (pass1 := pass_events (Z.of_nat (length issues)) body verdicts).
  assert (Hg_pass1 : gets pass1 = []) by now apply pass_events_gets.
  destruct (failed_count verdicts >? 0)%Z.
  - exists (check_passed_events ++ pass1). cbn [fst snd exit_status].
    split.
    { unfold start, check_events, check_passed_events. rewrite <- !app_assoc. reflexivity. }
    repeat split; auto.
  - destruct (main_spec w headers issues (start ++ pass1))
      as (v2 & b2 & Hm2 & _ & _ & Hgb2 & _).
    rewrite Hm2. cbn [fst snd].
    exists (check_passed_events ++ pass1 ++ pass_events (Z.of_nat (length issues)) b2 v2).
    split.
    { unfold start, check_events, check_passed_events, pass_events.
      rewrite <- !app_assoc. reflexivity. }
    repeat split; auto.
    + rewrite !gets_app, Hg_pass1, (pass_events_gets b2 v2 _ Hgb2). reflexivity.
    + destruct (failed_count v2 >? 0)%Z; [right | left]; reflexivity.
Qed.

End Paths.

(** ** The second script after its check *)

Section AfterCheck.

Import CreateIssues CreateIssuesDirect Observe Marks.

Variables (w : world) (issues : list issue).

(** X1.  When GITHUB_TOKEN is set and the check is answered with 200, the
    second script submits the catalog through the executed text of the
    first script, and then calls [main] a second time if that pass had no
    failure.  With a failure in the first pass the process exits with
    status 1 after N requests.  Without one the run holds 2N requests, the
    catalog twice in order, and the first request of the second pass
    follows the last request of the first with no pause between them. *)
Theorem second_script_submits_twice (t0 : trace) (answer : response) :
  import_requests_or_install w [] = (Returns tt, t0) ->
  truthy (environ w (lit "GITHUB_TOKEN")) = true ->
  let token := fstring_field (environ w (lit "GITHUB_TOKEN")) in
  let headers := make_headers token in
  http_get w (t0 ++ [Stdout (lit "Testing GitHub authentication..." ++ [10%N])])
    REPO_URL headers = inr answer ->
  status_code answer = 200%Z ->
  let r := run (CreateIssuesDirect.script issues) w in
  exists (verdicts : list bool) (after : trace),
    snd r = (t0 ++ check_events token ++ check_passed_events) ++ after
    /\ Forall2 (verdict_of w headers) issues verdicts
    /\ ((failed_count verdicts > 0)%Z ->
        fst r = Exits 1
        /\ posts after = map (HttpPost API_URL headers) issues
        /\ pacing after = paced headers issues)
    /\ (failed_count verdicts = 0%Z ->
        posts after = map (HttpPost API_URL headers) issues
                      ++ map (HttpPost API_URL headers) issues
        /\ pacing after = paced headers issues ++ paced headers issues
        /\ forall a x y b,
             issues = a ++ [x] -> issues = y :: b ->
             exists pre post,
               pacing after =
                 pre ++ HttpPost API_URL headers x :: HttpPost API_URL headers y :: post).
Proof.
  intros Hi He token headers Hget Hs. cbv zeta.
  pose proof (token_from_environment w t0 He) as Ht.
  assert (Hsome : environ w (lit "GITHUB_TOKEN") = Some token).
  { unfold token. destruct (environ w (lit "GITHUB_TOKEN")) as [s |]; [reflexivity | discriminate]. }
  assert (Hne : token <> []).
  { intros E. rewrite Hsome, E in He. discriminate. }
  rewrite Hsome in Ht.
  rewrite (second_script_prefix w issues t0 t0 token answer Hi Ht Hne Hget).
  rewrite Hs. cbn [Z.eqb Pos.eqb negb].
  set (start := (t0 ++ _) ++ _).
  assert (Hstart : start = t0 ++ check_events token ++ check_passed_events).
  { unfold start, check_events, check_passed_events. rewrite <- !app_assoc. reflexivity. }
  destruct (exec_then_main w issues start He)
    as (verdicts & body & Hv & Hp & _ & Hpace & Hrun).
  fold token in Hv, Hp, Hpace, Hrun. fold headers in Hv, Hp, Hpace, Hrun.
  rewrite Hrun. clear Hrun.
  set (pass1 := pass_events (Z.of_nat (length issues)) body verdicts).
  assert (Hp1 : posts pass1 = map (HttpPost API_URL headers) issues)
    by now apply pass_events_posts.
  assert (Hs1 : pacing pass1 = paced headers issues)
    by now apply pass_events_pacing.
  exists verdicts.
  destruct (failed_count verdicts >? 0)%Z eqn:Hf.
  - exists pass1. cbn [fst snd]. rewrite Hstart.
    split; [reflexivity |]. split; [exact Hv |]. split.
    + intros _. auto.
    + intros Hz. rewrite Hz in Hf. discriminate.
  - destruct (main_spec w headers issues (start ++ pass1))
      as (v2 & b2 & Hm2 & _ & Hp2 & _ & Hpace2 & _).
    rewrite Hm2. cbn [fst snd].
    set (pass2 := pass_events (Z.of_nat (length issues)) b2 v2).
    assert (Hp2' : posts pass2 = map (HttpPost API_URL headers) issues)
      by now apply pass_events_posts.
    assert (Hs2 : pacing pass2 = paced headers issues)
      by now apply pass_events_pacing.
    exists (pass1 ++ pass2). rewrite <- Hstart.
    split; [unfold pass2, pass_events; rewrite <- !app_assoc; reflexivity |].
    split; [exact Hv |]. split.
    + intros Hpos. apply Z.gt_lt, Z.gtb_lt in Hpos. rewrite Hpos in Hf. discriminate.
    + intros _. rewrite posts_app, pacing_app, Hp1, Hp2', Hs1, Hs2.
      split; [reflexivity |]. split; [reflexivity |].
      intros a x y b Ha Hb.
      destruct (paced_last headers a x) as (pre & Hpre & _).
      destruct (paced_head headers y b) as (post & Hpost).
      exists pre, post. rewrite Ha at 1. rewrite Hb at 1. rewrite Hpre, Hpost.
      rewrite <- app_assoc. reflexivity.
Qed.

(** X2.  When the check is answered with any status other than 200
    (another 2xx status included) the second script prints the status code
    and the text of the answer and exits with status 1.  The run holds
    that one GET request and no POST request. *)
Theorem rejected_check_ends_run (t0 t1 : trace) (token : str) (answer : response) :
  import_requests_or_install w [] = (Returns tt, t0) ->
  get_github_token w t0 = (Returns (Some token), t1) ->
  token <> [] ->
  http_get w (t1 ++ [Stdout (lit "Testing GitHub authentication..." ++ [10%N])])
    REPO_URL (make_headers token) = inr answer ->
  status_code answer <> 200%Z ->
  let r := run (CreateIssuesDirect.script issues) w in
  r = (Exits 1,
       t1 ++ check_events token
          ++ [ Stdout ((ballot_x :: lit " Authentication failed: "
                        ++ str_of_int (status_code answer)) ++ [10%N]);
               Stdout ((lit "Response: " ++ text answer) ++ [10%N]) ])
  /\ exit_status (fst r) = 1%Z
  /\ gets (snd r) = [HttpGet REPO_URL (make_headers token)]
  /\ posts (snd r) = [].
Proof.
  intros Hi Ht Hne Hget Hs. cbv zeta.
  rewrite (rejected_check_exits w issues t0 t1 token answer Hi Ht Hne Hget Hs).
  destruct (import_block_quiet w _ _ Hi) as [Hg0 Hp0].
  destruct (token_trace_quiet w _ _ _ Ht) as [Hg1 Hp1].
  rewrite Hg0 in Hg1. rewrite Hp0 in Hp1.
  cbn [fst snd exit_status]. unfold check_events.
  split; [reflexivity |]. split; [reflexivity |].
  rewrite gets_app, posts_app, Hg1, Hp1. split; reflexivity.
Qed.

(** X3.  When the request of the check itself raises (no network, say),
    nothing catches the exception: the second script ends with it, that
    is with exit status 1, right after the request, prints neither verdict
    on the authentication, and submits nothing. *)
Theorem check_exception_ends_run (t0 t1 : trace) (token : str) (e : exn) :
  import_requests_or_install w [] = (Returns tt, t0) ->
  get_github_token w t0 = (Returns (Some token), t1) ->
  token <> [] ->
  http_get w (t1 ++ [Stdout (lit "Testing GitHub authentication..." ++ [10%N])])
    REPO_URL (make_headers token) = inl e ->
  let r := run (CreateIssuesDirect.script issues) w in
  r = (Raises e, t1 ++ check_events token)
  /\ exit_status (fst r) = 1%Z
  /\ posts (snd r) = [].
Proof.
  intros Hi Ht Hne Hget. cbv zeta.
  rewrite (second_script_check_raises w issues t0 t1 token e Hi Ht Hne Hget).
  destruct (import_block_quiet w _ _ Hi) as [_ Hp0].
  destruct (token_trace_quiet w _ _ _ Ht) as [_ Hp1]. rewrite Hp0 in Hp1.
  cbn [fst snd exit_status]. repeat split.
  rewrite posts_app, Hp1. reflexivity.
Qed.

(** X4.  An exception of [subprocess.run] that is neither
    [FileNotFoundError] nor [TimeoutExpired] leaves [get_github_token].
    The second script then ends with that exception, exit status 1, right
    after the call of the helper: it prints no instructions and sends no
    request. *)
Theorem helper_exception_escapes (t0 : trace) (e : exn) :
  import_requests_or_install w [] = (Returns tt, t0) ->
  truthy (environ w (lit "GITHUB_TOKEN")) = false ->
  subprocess w helper_argv (Some 5%Z) = inl e ->
  helper_failure e = false ->
  let r := run (CreateIssuesDirect.script issues) w in
  get_github_token w t0 = (Raises e, t0 ++ [Subprocess helper_argv (Some 5%Z)])
  /\ r = (Raises e, t0 ++ [Subprocess helper_argv (Some 5%Z)])
  /\ exit_status (fst r) = 1%Z
  /\ gets (snd r) = []
  /\ posts (snd r) = [].
Proof.
  intros Hi He Hsub Hf. cbv zeta.
  pose proof (token_helper_escapes w t0 e He Hsub Hf) as Ht.
  destruct (import_block_quiet w _ _ Hi) as [Hg0 Hp0].
  split; [exact Ht |].
  unfold run, CreateIssuesDirect.script.
  rewrite (bind_returns _ _ _ _ _ _ _ _ Hi), (bind_raises _ _ _ _ _ _ _ _ Ht).
  cbn [fst snd exit_status]. rewrite gets_app, posts_app, Hg0, Hp0.
  repeat split.
Qed.

End AfterCheck.

(** ** Missing library, malformed answers *)

Section EdgeCases.

Import CreateIssues CreateIssuesDirect Observe Marks.

Variables (w : world) (issues : list issue).

(** X5.  When [requests] cannot be imported, the first script ends with
    the [ImportError] (exit status 1) before it prints or sends anything.
    The second script prints a notice and runs pip; whatever pip returns,
    it then imports again: if that fails too it ends with the
    [ImportError] without having looked for a token, and if it works the
    import block is over with these two events in the trace. *)
Theorem missing_requests_library (p : completed_process) :
  requests_installed w = false ->
  subprocess w
    [sys_executable w; lit "-m"; lit "pip"; lit "install"; lit "requests"; lit "-q"]
    None = inr p ->
  let notice := Stdout (lit "Installing requests library..." ++ [10%N]) in
  run (CreateIssues.script issues) w = (Raises no_module_requests, [])
  /\ (requests_installable w = false ->
      let r := run (CreateIssuesDirect.script issues) w in
      r = (Raises no_module_requests, [notice; pip_call w])
      /\ exit_status (fst r) = 1%Z)
  /\ (requests_installable w = true ->
      import_requests_or_install w [] = (Returns tt, [notice; pip_call w])).
Proof.
  intros Hreq Hpip. cbv zeta.
  assert (Himp : forall b, requests_installable w = b ->
            import_requests_or_install w [] =
              ((if b then Returns tt else Raises no_module_requests),
               [Stdout (lit "Installing requests library..." ++ [10%N]); pip_call w])).
  { intros b Hb.
    unfold import_requests_or_install, try_except, import_requests,
      import_requests_after_install, bind, print, emit, get_sys_executable,
      subprocess_run, pip_call.
    rewrite Hreq. cbn [is_ImportError no_module_requests exn_cls app].
    rewrite Hpip, Hb. destruct b; reflexivity. }
  split; [| split].
  - unfold run, CreateIssues.script, import_requests, bind. now rewrite Hreq.
  - intros Hno. unfold run, CreateIssuesDirect.script.
    rewrite (bind_raises _ _ _ _ _ _ _ _ (Himp false Hno)). split; reflexivity.
  - intros Hyes. exact (Himp true Hyes).
Qed.

(** X6.  A 201 answer whose JSON object lacks [number], or has [number]
    but lacks [title], is reported as an error and counted as a failure,
    although the status says the issue exists: [create_issue] returns
    [False] and the error line shows the key that is missing. *)
Theorem incomplete_answer_is_failure (headers : headers_t) (x : issue) (t : trace)
    (r : response) (d : list (str * pyval)) :
  http_post w t API_URL headers x = inr r ->
  status_code r = 201%Z ->
  json r = inr (PDict d) ->
  let failure key :=
    (Returns false,
     t ++ [ HttpPost API_URL headers x;
            Stdout ((ballot_x :: lit " Error creating issue: " ++ title x) ++ [10%N]);
            Stdout ((lit "  Error: " ++ repr_str (python w) (lit key)) ++ [10%N]) ]) in
  (dict_get d (lit "number") = None ->
   create_issue headers x w t = failure "number"%string)
  /\ (forall n,
        dict_get d (lit "number") = Some n ->
        dict_get d (lit "title") = None ->
        create_issue headers x w t = failure "title"%string).
Proof.
  intros Hpost Hs Hj. cbv zeta. split.
  - intros Hn.
    apply (create_issue_raised w headers x t
             {| exn_cls := KeyError; exn_str := repr_str (python w) (lit "number") |}).
    rewrite Hpost. unfold attempt_exception. rewrite Hs, Hj. cbn [Z.eqb Pos.eqb].
    unfold getitem. now rewrite Hn.
  - intros n Hn Ht.
    apply (create_issue_raised w headers x t
             {| exn_cls := KeyError; exn_str := repr_str (python w) (lit "title") |}).
    rewrite Hpost. unfold attempt_exception. rewrite Hs, Hj. cbn [Z.eqb Pos.eqb].
    unfold getitem. now rewrite Hn, Ht.
Qed.

End EdgeCases.

(** ** Progress marks *)

Section ProgressMarks.

Import CreateIssues CreateIssuesDirect Observe Marks.

Lemma before_posts_quiet (l : trace) : posts l = [] -> before_posts l = [].
Proof.
  induction l as [| e l IH]; [reflexivity |].
  intros H. cbn [before_posts].
  destruct l as [| e' l]; [reflexivity |].
  assert (Hl : posts (e' :: l) = []).
  { unfold posts in *. cbn [filter] in H. destruct (is_post e); [discriminate | exact H]. }
  destruct e'; try (apply IH; exact Hl).
  discriminate Hl.
Qed.

(** Appending a trace that does not begin with a POST request. *)
Lemma before_posts_app (a b : trace) :
  match b with e :: _ => is_post e = false | [] => True end ->
  before_posts (a ++ b) = before_posts a ++ before_posts b.
Proof.
  intros Hb. induction a as [| e a IH]; [reflexivity |].
  cbn [app before_posts]. destruct a as [| e' a].
  - cbn [app]. destruct b as [| e' b]; [reflexivity |].
    destruct e'; try reflexivity. discriminate Hb.
  - cbn [app] in *. destruct e'; rewrite IH; reflexivity.
Qed.

Lemma count_from_length (i : Z) (n : nat) : length (count_from i n) = n.
Proof. revert i. induction n as [| n IH]; intros i; cbn; auto. Qed.

(** One turn of the loop: a mark, a request, and no other request. *)
Lemma before_posts_turn (e : event) (url : str) (h : headers_t) (x : issue) (rest : trace) :
  posts rest = [] -> before_posts (e :: HttpPost url h x :: rest) = [e].
Proof.
  intros H.
  change (before_posts (e :: HttpPost url h x :: rest))
    with (e :: before_posts (HttpPost url h x :: rest)).
  f_equal.
  assert (E : before_posts (HttpPost url h x :: rest) = before_posts rest).
  { destruct rest as [| e' rest]; [reflexivity |].
    destruct e'; try reflexivity. discriminate H. }
  rewrite E. now apply before_posts_quiet.
Qed.

Variables (w : world) (headers : headers_t).

(** The marks of the loop: the record at index [i] is announced by
    [[i/total] ], the next by [[i+1/total] ], and so on. *)
Lemma loop_marks (total : Z) (rest : list issue) :
  forall (i created failed : Z) (t : trace),
  exists new,
    snd (loop headers total i rest (created, failed) w t) = t ++ new
    /\ before_posts new =
         map (fun k => Stdout (progress k total)) (count_from i (length rest))
    /\ match new with e :: _ => is_post e = false | [] => True end.
Proof.
  induction rest as [| x rest IH]; intros i created failed t.
  - exists []. cbn. rewrite app_nil_r. auto.
  - destruct (loop_body_spec w headers total i x created failed t)
      as (ok & lines & _ & Hb & _).
    cbn [loop]. rewrite (bind_returns _ _ _ _ _ _ _ _ Hb).
    set (turn := Stdout (progress i total) :: HttpPost API_URL headers x
                 :: map Stdout lines ++ (if (i <? total)%Z then [Sleep 1] else [])) in *.
    destruct (IH (i + 1)%Z (fst (if ok then (created + 1, failed) else (created, failed + 1)))%Z
                (snd (if ok then (created + 1, failed) else (created, failed + 1)))%Z
                (t ++ turn)) as (new & Hnew & Hmarks & Hhead).
    rewrite <- surjective_pairing in Hnew.
    exists (turn ++ new). split; [| split].
    + rewrite Hnew, <- app_assoc. reflexivity.
    + rewrite (before_posts_app turn new Hhead), Hmarks.
      unfold turn. rewrite before_posts_turn; [reflexivity |].
      rewrite posts_app, posts_stdout. now destruct (i <? total)%Z.
    + reflexivity.
Qed.

(** [main] in terms of its loop. *)
Lemma main_unfold (issues : list issue) (t t' : trace) (tally : Z * Z) :
  let total := Z.of_nat (length issues) in
  loop headers total 1 issues (0, 0)%Z w (t ++ banner_events total) = (Returns tally, t') ->
  main headers issues w t =
    ((if (snd tally >? 0)%Z then Exits 1 else Returns tt),
     t' ++ summary_events (fst tally) (snd tally) total).
Proof.
  cbv zeta. intros Hl. unfold main. rewrite !bind_print.
  rewrite <- (app_assoc t). cbn [app]. unfold banner_events in Hl.
  rewrite (bind_returns _ _ _ _ _ _ _ _ Hl).
  rewrite (bind_returns _ _ _ _ _ _ _ _ (summary_spec w (fst tally) (snd tally) _ _)).
  unfold sys_exit, ret. destruct (snd tally >? 0)%Z; reflexivity.
Qed.

(** X7.  In a run of [main] over N records the event just before the
    k-th POST request is the progress mark [[k/N] ] written without a
    line break, for k = 1, ..., N: every request is announced, with its
    own index and the size of the catalog. *)
Theorem every_request_is_announced (issues : list issue) (t : trace) :
  let total := Z.of_nat (length issues) in
  exists new,
    snd (main headers issues w t) = t ++ new
    /\ before_posts new =
         map (fun k => Stdout (progress k total)) (count_from 1 (length issues))
    /\ length (before_posts new) = length (posts new).
Proof.
  cbv zeta.
  destruct (loop_marks (Z.of_nat (length issues)) issues 1 0 0
              (t ++ banner_events (Z.of_nat (length issues))))
    as (new & Hnew & Hmarks & Hhead).
  destruct (loop_spec w headers (Z.of_nat (length issues)) issues 1 0 0
              (t ++ banner_events (Z.of_nat (length issues))))
    as (verdicts & new' & Hl & _ & Hp & _).
  rewrite Hl in Hnew. cbn [snd] in Hnew. apply app_inv_head in Hnew. subst new'.
  rewrite (main_unfold issues t _ _ Hl). cbn [fst snd].
  set (tail := summary_events _ _ _).
  exists (banner_events (Z.of_nat (length issues)) ++ new ++ tail).
  assert (Hb : before_posts (banner_events (Z.of_nat (length issues)) ++ new ++ tail)
               = before_posts new).
  { rewrite before_posts_app.
    - rewrite before_posts_app by reflexivity.
      rewrite (before_posts_quiet tail) by reflexivity. apply app_nil_r.
    - destruct new as [| e new]; [reflexivity | exact Hhead]. }
  split; [now rewrite <- !app_assoc |]. split.
  - rewrite Hb. exact Hmarks.
  - rewrite Hb, Hmarks, length_map, count_from_length.
    rewrite !posts_app, Hp.
    change (posts (banner_events (Z.of_nat (length issues)))) with (@nil event).
    change (posts tail) with (@nil event).
    rewrite app_nil_r. cbn [app]. now rewrite length_map.
Qed.

End ProgressMarks.

(** ** Exit status and requests of whole runs *)

Section WholeRuns.

Import CreateIssues CreateIssuesDirect Observe Marks.

Variables (w : world) (issues : list issue).

Lemma no_failure_all_created (P : issue -> bool -> Prop) (l : list issue)
    (verdicts : list bool) :
  Forall2 P l verdicts -> failed_count verdicts = 0%Z -> Forall (fun x => P x true) l.
Proof.
  induction 1 as [| x ok l verdicts Hx _ IH]; intros Hf; [constructor |].
  rewrite failed_count_cons in Hf.
  pose proof (counts_nonneg verdicts) as [_ Hnn].
  destruct ok; [| lia].
  constructor; [exact Hx | apply IH; lia].
Qed.

(** The three ways a run of the first script can go. *)
Lemma first_script_paths :
  let r := run (CreateIssues.script issues) w in
  let headers := make_headers (fstring_field (environ w (lit "GITHUB_TOKEN"))) in
  let total := Z.of_nat (length issues) in
  (requests_installed w = false /\ r = (Raises no_module_requests, []))
  \/ (requests_installed w = true
      /\ truthy (environ w (lit "GITHUB_TOKEN")) = false
      /\ r = (Exits 1, token_missing_events))
  \/ (requests_installed w = true
      /\ truthy (environ w (lit "GITHUB_TOKEN")) = true
      /\ exists verdicts body,
           r = ((if (failed_count verdicts >? 0)%Z then Exits 1 else Returns tt),
                pass_events total body verdicts)
           /\ Forall2 (verdict_of w headers) issues verdicts
           /\ posts body = map (HttpPost API_URL headers) issues
           /\ gets body = []).
Proof.
  cbv zeta. destruct (requests_installed w) eqn:Hreq.
  - destruct (truthy (environ w (lit "GITHUB_TOKEN"))) eqn:He.
    + right. right. repeat split.
      rewrite (first_script_with_token w issues Hreq He). cbv zeta.
      destruct (main_spec w (make_headers (fstring_field (environ w (lit "GITHUB_TOKEN"))))
                  issues []) as (verdicts & body & Hm & Hv & Hp & Hg & _).
      exists verdicts, body. rewrite Hm. cbn [fst snd app]. unfold pass_events.
      repeat split; auto. destruct (failed_count verdicts >? 0)%Z; reflexivity.
    + right. left. repeat split. now apply first_script_without_token.
  - left. split; [reflexivity |].
    unfold run, CreateIssues.script, import_requests, bind. now rewrite Hreq.
Qed.

(** X8.  Exit status 0 of the first script means that the whole catalog
    was created: the library was there, the variable was set, every record
    was posted once and got the verdict created, and the summary reads N
    created, 0 failed. *)
Theorem exit_zero_means_all_created :
  exit_status (fst (run (CreateIssues.script issues) w)) = 0%Z ->
  let headers := make_headers (fstring_field (environ w (lit "GITHUB_TOKEN"))) in
  let total := Z.of_nat (length issues) in
  requests_installed w = true
  /\ truthy (environ w (lit "GITHUB_TOKEN")) = true
  /\ exists body,
       run (CreateIssues.script issues) w =
         (Returns tt, banner_events total ++ body ++ summary_events total 0 total)
       /\ posts body = map (HttpPost API_URL headers) issues
       /\ Forall (fun x => verdict_of w headers x true) issues.
Proof.
  cbv zeta. intros Hexit.
  destruct first_script_paths as [[_ Hr] | [(_ & _ & Hr) | (Hreq & He & verdicts & body & Hr & Hv & Hp & _)]];
    rewrite Hr in Hexit; try discriminate Hexit.
  split; [exact Hreq |]. split; [exact He |].
  cbn [fst] in Hexit. destruct (failed_count verdicts >? 0)%Z eqn:Hf; [discriminate |].
  assert (Hz : failed_count verdicts = 0%Z).
  { pose proof (counts_nonneg verdicts) as [_ Hnn].
    destruct (Z.gtb_spec (failed_count verdicts) 0); [discriminate | lia]. }
  exists body. rewrite Hr. unfold pass_events.
  pose proof (counts_add verdicts) as Hadd. rewrite Hz, Z.add_0_r in Hadd.
  rewrite Hz, Hadd, <- (Forall2_length Hv).
  repeat split; auto.
  exact (no_failure_all_created _ _ _ Hv Hz).
Qed.

(** A POST request cannot stand inside a prefix without POST requests. *)
Lemma post_is_past_quiet_prefix (quiet rest pre post : trace) (e : event) :
  pre ++ e :: post = quiet ++ rest ->
  is_post e = true ->
  posts quiet = [] ->
  exists mid, pre = quiet ++ mid /\ rest = mid ++ e :: post.
Proof.
  revert pre. induction quiet as [| q quiet IH]; intros pre E He Hq.
  - exists pre. auto.
  - assert (Hq' : is_post q = false /\ posts quiet = []).
    { unfold posts in *. cbn [filter] in Hq. destruct (is_post q); [discriminate | auto]. }
    destruct Hq' as [Hqf Hq'].
    destruct pre as [| p pre]; cbn [app] in E; injection E as -> E.
    + rewrite He in Hqf. discriminate.
    + destruct (IH pre E He Hq') as (mid & -> & ->). exists mid. auto.
Qed.

(** X9.  In every run of the second script, whatever the world, a POST
    request is preceded by the GET request of the check, that check was
    answered with status 200, and no other GET request stands between
    them: nothing is submitted without a check that passed. *)
Theorem no_submission_without_passed_check
    (pre : trace) (url : str) (headers : headers_t) (x : issue) (post : trace) :
  snd (run (CreateIssuesDirect.script issues) w) = pre ++ HttpPost url headers x :: post ->
  exists before token answer between,
    pre = before ++ HttpGet REPO_URL (make_headers token) :: between
    /\ http_get w before REPO_URL (make_headers token) = inr answer
    /\ status_code answer = 200%Z
    /\ posts before = []
    /\ gets between = [].
Proof.
  intros E.
  destruct (second_script_paths w issues)
    as [(_ & Hp & _) | (t1 & token & answer & after & Hr & Hp1 & Hg1 & Hget & Hs & Hga & _)].
  - rewrite E, posts_app in Hp. cbn in Hp.
    apply app_eq_nil in Hp as [_ Hp]. discriminate.
  - rewrite Hr in E. symmetry in E.
    destruct (post_is_past_quiet_prefix (t1 ++ check_events token) after pre post
                (HttpPost url headers x) E eq_refl) as (mid & -> & Hafter).
    { rewrite posts_app, Hp1. reflexivity. }
    exists (t1 ++ [Stdout (lit "Testing GitHub authentication..." ++ [10%N])]),
      token, answer, mid.
    split; [unfold check_events; rewrite <- !app_assoc; reflexivity |].
    split; [exact Hget |]. split; [exact Hs |]. split.
    + rewrite posts_app, Hp1. reflexivity.
    + rewrite Hafter, gets_app in Hga. now apply app_eq_nil in Hga as [Hm _].
Qed.

(** X10.  Both scripts end with exit status 0 or 1 and no other, whatever
    the environment, the helper and the server do. *)
Theorem exit_status_is_zero_or_one :
  (exit_status (fst (run (CreateIssues.script issues) w)) = 0%Z
   \/ exit_status (fst (run (CreateIssues.script issues) w)) = 1%Z)
  /\ (exit_status (fst (run (CreateIssuesDirect.script issues) w)) = 0%Z
      \/ exit_status (fst (run (CreateIssuesDirect.script issues) w)) = 1%Z).
Proof.
  split.
  - destruct first_script_paths as [[_ Hr] | [(_ & _ & Hr) | (_ & _ & verdicts & body & Hr & _)]];
      rewrite Hr; cbn [fst exit_status]; auto.
    destruct (failed_count verdicts >? 0)%Z; auto.
  - destruct (second_script_paths w issues) as [(H & _) | (? & ? & ? & ? & _ & _ & _ & _ & _ & _ & H)];
      auto.
Qed.

(** X11.  The first script never sends a GET request: it submits without
    any check of the token.  The second script sends at most one in a
    run: the check is not retried, and [main] adds none. *)
Theorem check_is_made_at_most_once :
  gets (snd (run (CreateIssues.script issues) w)) = []
  /\ length (gets (snd (run (CreateIssuesDirect.script issues) w))) <= 1.
Proof.
  split.
  - destruct first_script_paths as [[_ Hr] | [(_ & _ & Hr) | (_ & _ & verdicts & body & Hr & _ & _ & Hg)]];
      rewrite Hr; cbn [snd]; try reflexivity.
    now apply pass_events_gets.
  - destruct (second_script_paths w issues)
      as [(_ & _ & H) | (t1 & token & answer & after & Hr & _ & Hg1 & _ & _ & Hga & _)];
      [exact H |].
    rewrite Hr, !gets_app, Hg1, Hga. cbn. auto.
Qed.

End WholeRuns.

(** ** The token that is found *)

Section TokenFound.

Import CreateIssues CreateIssuesDirect Observe Marks.

(** X12.  [get_github_token] returns a given non-empty token exactly in
    two cases: GITHUB_TOKEN holds it; or GITHUB_TOKEN is unset or empty,
    the helper exits with code 0 and the token is its output without the
    white space around it.  A helper that exits with another code gives
    no token, whatever it printed. *)
Theorem token_found_iff (w : world) (t : trace) (tok : str) :
  tok <> [] ->
  fst (get_github_token w t) = Returns (Some tok)
  <-> (environ w (lit "GITHUB_TOKEN") = Some tok
       \/ (truthy (environ w (lit "GITHUB_TOKEN")) = false
           /\ exists p,
                subprocess w helper_argv (Some 5%Z) = inr p
                /\ returncode p = 0%Z
                /\ strip (stdout p) = tok)).
Proof.
  intros Hne. split.
  - unfold get_github_token, bind, os_environ_get, try_except, subprocess_run, ret.
    destruct (truthy (environ w (lit "GITHUB_TOKEN"))) eqn:He.
    + cbn [fst]. intros [= ->]. now left.
    + destruct (subprocess w helper_argv (Some 5%Z)) as [e | p] eqn:Hp.
      * destruct (helper_failure e); cbn [fst]; discriminate.
      * destruct (returncode p =? 0)%Z eqn:Hrc; cbn [fst]; [| discriminate].
        intros [= <-]. right. split; [reflexivity |].
        exists p. apply Z.eqb_eq in Hrc. auto.
  - intros [Henv | (He & p & Hp & Hrc & <-)].
    + rewrite (token_from_environment w t); [now rewrite Henv |].
      rewrite Henv. destruct tok; [contradiction | reflexivity].
    + now rewrite (token_from_helper w t p He Hp Hrc).
Qed.

End TokenFound.

(** ** The further theorems at concrete runs *)

Section MoreRuns.

Import CreateIssues CreateIssuesDirect Observe Marks Samples Faults.

Lemma second_script_submits_twice_witness :
  import_requests_or_install world_env [] = (Returns tt, [])
  /\ truthy (environ world_env (lit "GITHUB_TOKEN")) = true
  /\ http_get world_env ([] ++ [Stdout (lit "Testing GitHub authentication..." ++ [10%N])])
       REPO_URL (make_headers (lit "ghp_env")) = inr (plain_response 200 (lit "{...}"))
  /\ exists verdicts after,
       snd (run (CreateIssuesDirect.script catalog) world_env) =
         ([] ++ check_events (lit "ghp_env") ++ check_passed_events) ++ after
       /\ Forall2 (verdict_of world_env (make_headers (lit "ghp_env"))) catalog verdicts.
Proof.
  do 3 (split; [reflexivity |]).
  destruct (second_script_submits_twice world_env catalog []
              (plain_response 200 (lit "{...}")) eq_refl eq_refl eq_refl eq_refl)
    as (verdicts & after & Hrun & Hv & _).
  exists verdicts, after. split; [exact Hrun | exact Hv].
Defined.

Lemma rejected_check_ends_run_witness :
  get_github_token world_no_content [] = (Returns (Some (lit "ghp_env")), [])
  /\ status_code (plain_response 204 []) <> 200%Z
  /\ exit_status (fst (run (CreateIssuesDirect.script catalog) world_no_content)) = 1%Z
  /\ posts (snd (run (CreateIssuesDirect.script catalog) world_no_content)) = []
  /\ posts (snd (run (CreateIssuesDirect.script catalog) world_rejected)) = [].
Proof.
  split; [reflexivity |]. split; [discriminate |].
  destruct (rejected_check_ends_run world_no_content catalog [] [] (lit "ghp_env")
              (plain_response 204 []) eq_refl eq_refl ltac:(discriminate) eq_refl
              ltac:(discriminate))
    as (_ & Hexit & _ & Hposts).
  destruct (rejected_check_ends_run world_rejected catalog [] [] (lit "ghp_env")
              (plain_response 401 (lit "Bad credentials")) eq_refl eq_refl
              ltac:(discriminate) eq_refl ltac:(discriminate))
    as (_ & _ & _ & Hposts').
  split; [exact Hexit |]. split; [exact Hposts | exact Hposts'].
Defined.

Lemma check_exception_ends_run_witness :
  http_get world_offline ([] ++ [Stdout (lit "Testing GitHub authentication..." ++ [10%N])])
    REPO_URL (make_headers (lit "ghp_env")) = inl connection_error
  /\ run (CreateIssuesDirect.script catalog) world_offline =
       (Raises connection_error, [] ++ check_events (lit "ghp_env")).
Proof.
  split; [reflexivity |].
  exact (proj1 (check_exception_ends_run world_offline catalog [] [] (lit "ghp_env")
                  connection_error eq_refl eq_refl ltac:(discriminate) eq_refl)).
Defined.

Lemma helper_exception_escapes_witness :
  truthy (environ world_gh_denied (lit "GITHUB_TOKEN")) = false
  /\ subprocess world_gh_denied helper_argv (Some 5%Z) = inl gh_denied
  /\ helper_failure gh_denied = false
  /\ run (CreateIssuesDirect.script catalog) world_gh_denied =
       (Raises gh_denied, [] ++ [Subprocess helper_argv (Some 5%Z)]).
Proof.
  do 3 (split; [reflexivity |]).
  exact (proj1 (proj2 (helper_exception_escapes world_gh_denied catalog [] gh_denied
                         eq_refl eq_refl eq_refl eq_refl))).
Defined.

Lemma missing_requests_library_witness :
  requests_installed world_no_requests = false
  /\ requests_installable world_no_requests = false
  /\ run (CreateIssues.script catalog) world_no_requests = (Raises no_module_requests, [])
  /\ exit_status (fst (run (CreateIssuesDirect.script catalog) world_no_requests)) = 1%Z
  /\ requests_installable world_pip = true
  /\ import_requests_or_install world_pip [] =
       (Returns tt,
        [Stdout (lit "Installing requests library..." ++ [10%N]); pip_call world_pip]).
Proof.
  destruct (missing_requests_library world_no_requests catalog
              {| returncode := 1; stdout := [] |} eq_refl eq_refl)
    as (Hfirst & Hsecond & _).
  destruct (missing_requests_library world_pip catalog
              {| returncode := 0; stdout := [] |} eq_refl eq_refl)
    as (_ & _ & Hpip).
  do 2 (split; [reflexivity |]).
  split; [exact Hfirst |].
  split; [exact (proj2 (Hsecond eq_refl)) |].
  split; [reflexivity | exact (Hpip eq_refl)].
Defined.

Lemma incomplete_answer_is_failure_witness :
  http_post world_no_number [] API_URL (make_headers (lit "ghp_env")) issue_a =
    inr {| status_code := 201;
           text := lit "{...}";
           json := inr (PDict [(lit "title", PStr (title issue_a))]) |}
  /\ dict_get [(lit "title", PStr (title issue_a))] (lit "number") = None
  /\ create_issue (make_headers (lit "ghp_env")) issue_a world_no_number [] =
       (Returns false,
        [] ++ [ HttpPost API_URL (make_headers (lit "ghp_env")) issue_a;
                Stdout ((ballot_x :: lit " Error creating issue: " ++ title issue_a)
                        ++ [10%N]);
                Stdout ((lit "  Error: " ++ repr_str (python world_no_number) (lit "number"))
                        ++ [10%N]) ]).
Proof.
  do 2 (split; [reflexivity |]).
  exact (proj1 (incomplete_answer_is_failure world_no_number (make_headers (lit "ghp_env"))
                  issue_a [] _ [(lit "title", PStr (title issue_a))]
                  eq_refl eq_refl eq_refl) eq_refl).
Defined.

Lemma exit_zero_means_all_created_witness :
  exit_status (fst (run (CreateIssues.script catalog) world_env)) = 0%Z
  /\ Forall (fun x => verdict_of world_env (make_headers (lit "ghp_env")) x true) catalog.
Proof.
  assert (H : exit_status (fst (run (CreateIssues.script catalog) world_env)) = 0%Z)
    by (vm_compute; reflexivity).
  split; [exact H |].
  destruct (exit_zero_means_all_created world_env catalog H)
    as (_ & _ & body & _ & _ & Hall).
  exact Hall.
Defined.

Lemma no_submission_without_passed_check_witness :
  let final := snd (run (CreateIssuesDirect.script [issue_a]) world_env) in
  final = firstn 7 final
          ++ HttpPost API_URL (make_headers (lit "ghp_env")) issue_a :: skipn 8 final
  /\ exists before token answer between,
       firstn 7 final = before ++ HttpGet REPO_URL (make_headers token) :: between
       /\ http_get world_env before REPO_URL (make_headers token) = inr answer
       /\ status_code answer = 200%Z.
Proof.
  cbv zeta.
  assert (H : snd (run (CreateIssuesDirect.script [issue_a]) world_env) =
              firstn 7 (snd (run (CreateIssuesDirect.script [issue_a]) world_env))
              ++ HttpPost API_URL (make_headers (lit "ghp_env")) issue_a
                 :: skipn 8 (snd (run (CreateIssuesDirect.script [issue_a]) world_env)))
    by (vm_compute; reflexivity).
  split; [exact H |].
  destruct (no_submission_without_passed_check world_env [issue_a] _ _ _ _ _ H)
    as (before & token & answer & between & Hpre & Hget & Hs & _).
  exists before, token, answer, between. auto.
Defined.

Lemma token_found_iff_witness :
  lit "gho_helper" <> []
  /\ truthy (environ world_helper (lit "GITHUB_TOKEN")) = false
  /\ fst (get_github_token world_helper []) = Returns (Some (lit "gho_helper")).
Proof.
  split; [discriminate |]. split; [reflexivity |].
  apply (proj2 (token_found_iff world_helper [] (lit "gho_helper") ltac:(discriminate))).
  right. split; [reflexivity |].
  exists {| returncode := 0; stdout := lit "gho_helper" ++ [10%N] |}.
  repeat split.
Defined.

End MoreRuns.
